(** * fmkr: a client for the FileMaker Server XML publishing interface

    Shallow embedding of [fmkr/fmkr.py] (version 2020.1.1) and the
    properties of its request builder, transport step, response parser
    and error translation.

    Python values are modelled as follows.
    - [str] is a list of Unicode code points ([pystr := list N]); literals
      are written [u "..."].
    - [bytes] is a list of byte values ([pybytes := list N]).
    - [int] is [Z].
    - a [dict] is a [gmap]; a raised exception is the [Raise] case of [res].
    - the network ([urlopen] followed by [etree.parse]) is a function from
      the request to a [reply]; the part of urllib that depends on its
      version ([request_host], which validates the network location of
      the address) is a function from the address to a host name or an
      exception. *)

From stdpp Require Import base option list gmap numbers strings.
From Stdlib Require Import Ascii Decimal.
From Stdlib Require DecimalN.

Open Scope N_scope.

(** ** Python strings and bytes *)

Definition pystr := list N.
Definition pybytes := list N.

(** An ASCII literal as a Python string. *)
Definition u (s : string) : pystr := N_of_ascii <$> String.list_ascii_of_string s.

Fixpoint uint_digits (d : Decimal.uint) : pystr :=
  match d with
  | Nil => []
  | D0 d => 48 :: uint_digits d
  | D1 d => 49 :: uint_digits d
  | D2 d => 50 :: uint_digits d
  | D3 d => 51 :: uint_digits d
  | D4 d => 52 :: uint_digits d
  | D5 d => 53 :: uint_digits d
  | D6 d => 54 :: uint_digits d
  | D7 d => 55 :: uint_digits d
  | D8 d => 56 :: uint_digits d
  | D9 d => 57 :: uint_digits d
  end.

(** [str(n)] for a non-negative and for an arbitrary [int]. *)
Definition str_N (n : N) : pystr := uint_digits (N.to_uint n).

Definition str_Z (z : Z) : pystr :=
  match z with
  | Zneg p => 45 :: str_N (Npos p)
  | _ => str_N (Z.to_N z)
  end.

(** [str.isspace] on one character: the code points CPython's
    [_PyUnicode_IsWhitespace] accepts. *)
Definition isspace (c : N) : bool :=
  ((9 <=? c) && (c <=? 13)) || ((28 <=? c) && (c <=? 32))
  || (c =? 133) || (c =? 160) || (c =? 5760)
  || ((8192 <=? c) && (c <=? 8202))
  || (c =? 8232) || (c =? 8233) || (c =? 8239) || (c =? 8287)
  || (c =? 12288).

Fixpoint lstrip (s : pystr) : pystr :=
  match s with
  | c :: s' => if isspace c then lstrip s' else s
  | [] => []
  end.

Definition rstrip (s : pystr) : pystr := reverse (lstrip (reverse s)).

(** [s.strip()] *)
Definition strip (s : pystr) : pystr := rstrip (lstrip s).

(** [s.replace(old, new)] where [old] is a single character, the only
    form the program uses. *)
Definition replace (old : N) (new : list N) (s : list N) : list N :=
  flat_map (fun c => if c =? old then new else [c]) s.

(** ** Python values *)

(** Values held in request parameters. *)
Inductive pyval :=
  | VNone
  | VInt (n : Z)
  | VStr (s : pystr).

(** Values of a result record: a scalar or a list of scalars. *)
Inductive value :=
  | Scalar (v : pyval)
  | Seq (l : list pyval).

Definition str (v : pyval) : pystr :=
  match v with
  | VNone => u "None"
  | VInt n => str_Z n
  | VStr s => s
  end.

(** Truth value of [x] in [if x:]. *)
Definition truthy (v : pyval) : bool :=
  match v with
  | VNone => false
  | VInt n => negb (n =? 0)%Z
  | VStr s => negb (bool_decide (s = []))
  end.

(** ** class FMError *)

Module FMError.

(** The exception object: [code] and the message it prints. *)
Record t := mk { code : Z; message : pystr }.

Definition CODES : gmap Z pystr := list_to_map [
  ((-1)%Z, u "Unknown error");
  (0%Z, u "No error");
  (1%Z, u "User canceled action");
  (2%Z, u "Memory error");
  (3%Z, u "Command is unavailable (for example, wrong operating system, wrong mode, etc.)");
  (4%Z, u "Command is unknown");
  (5%Z, u "Command is invalid (for example, a Set Field script step does not have a calculation specified)");
  (6%Z, u "File is read-only");
  (7%Z, u "Running out of memory");
  (8%Z, u "Empty result");
  (9%Z, u "Insufficient privileges");
  (10%Z, u "Requested data is missing");
  (11%Z, u "Name is not valid");
  (12%Z, u "Name already exists");
  (13%Z, u "File or object is in use");
  (14%Z, u "Out of range");
  (15%Z, u "Can't divide by zero");
  (16%Z, u "Operation failed, request retry (for example, a user query)");
  (17%Z, u "Attempt to convert foreign character set to UTF-16 failed");
  (18%Z, u "Client must provide account information to proceed");
  (19%Z, u "String contains characters other than A-Z, a-z, 0-9 (ASCII)");
  (100%Z, u "File is missing");
  (101%Z, u "Record is missing");
  (102%Z, u "Field is missing");
  (103%Z, u "Relationship is missing");
  (104%Z, u "Script is missing");
  (105%Z, u "Layout is missing");
  (106%Z, u "Table is missing");
  (107%Z, u "Index is missing");
  (108%Z, u "Value list is missing");
  (109%Z, u "Privilege set is missing");
  (110%Z, u "Related tables are missing");
  (111%Z, u "Field repetition is invalid");
  (112%Z, u "Window is missing");
  (113%Z, u "Function is missing");
  (114%Z, u "File reference is missing");
  (130%Z, u "Files are damaged or missing and must be reinstalled");
  (131%Z, u "Language pack files are missing (such as template files)");
  (200%Z, u "Record access is denied");
  (201%Z, u "Field cannot be modified");
  (202%Z, u "Field access is denied");
  (203%Z, u "No records in file to print, or password doesn't allow print access");
  (204%Z, u "No access to field(s) in sort order");
  (205%Z, u "User does not have access privileges to create new records; import will overwrite existing data");
  (206%Z, u "User does not have password change privileges, or file is not modifiable");
  (207%Z, u "User does not have sufficient privileges to change database schema, or file is not modifiable");
  (208%Z, u "Password does not contain enough characters");
  (209%Z, u "New password must be different from existing one");
  (210%Z, u "User account is inactive");
  (211%Z, u "Password has expired");
  (212%Z, u "Invalid user account and/or password. Please try again");
  (213%Z, u "User account and/or password does not exist");
  (214%Z, u "Too many login attempts");
  (215%Z, u "Administrator privileges cannot be duplicated");
  (216%Z, u "Guest account cannot be duplicated");
  (217%Z, u "User does not have sufficient privileges to modify administrator account");
  (300%Z, u "File is locked or in use");
  (301%Z, u "Record is in use by another user");
  (302%Z, u "Table is in use by another user");
  (303%Z, u "Database schema is in use by another user");
  (304%Z, u "Layout is in use by another user");
  (306%Z, u "Record modification ID does not match");
  (400%Z, u "Find criteria are empty");
  (401%Z, u "No records match the request");
  (402%Z, u "Selected field is not a match field for a lookup");
  (403%Z, u "Exceeding maximum record limit for trial version of FileMaker(tm)) Pro");
  (404%Z, u "Sort order is invalid");
  (405%Z, u "Number of records specified exceeds number of records that can be omitted");
  (406%Z, u "Replace/Reserialize criteria are invalid");
  (407%Z, u "One or both match fields are missing (invalid relationship)");
  (408%Z, u "Specified field has inappropriate data type for this operation");
  (409%Z, u "Import order is invalid");
  (410%Z, u "Export order is invalid");
  (412%Z, u "Wrong version of FileMaker(tm) Pro used to recover file");
  (413%Z, u "Specified field has inappropriate field type");
  (414%Z, u "Layout cannot display the result");
  (415%Z, u "Related Record Required");
  (500%Z, u "Date value does not meet validation entry options");
  (501%Z, u "Time value does not meet validation entry options");
  (502%Z, u "Number value does not meet validation entry options");
  (503%Z, u "Value in field is not within the range specified in validation entry options");
  (504%Z, u "Value in field is not unique as required in validation entry options");
  (505%Z, u "Value in field is not an existing value in the database file as required in validation entry options");
  (506%Z, u "Value in field is not listed on the value list specified in validation entry option");
  (507%Z, u "Value in field failed calculation test of validation entry option");
  (508%Z, u "Invalid value entered in Find mode");
  (509%Z, u "Field requires a valid value");
  (510%Z, u "Related value is empty or unavailable");
  (511%Z, u "Value in field exceeds maximum number of allowed characters");
  (600%Z, u "Print error has occurred");
  (601%Z, u "Combined header and footer exceed one page");
  (602%Z, u "Body doesn't fit on a page for current column setup");
  (603%Z, u "Print connection lost");
  (700%Z, u "File is of the wrong file type for import");
  (706%Z, u "EPSF file has no preview image");
  (707%Z, u "Graphic translator cannot be found");
  (708%Z, u "Can't import the file or need color monitor support to import file");
  (709%Z, u "QuickTime movie import failed");
  (710%Z, u "Unable to update QuickTime file reference because the database file is read-only");
  (711%Z, u "Import translator cannot be found");
  (714%Z, u "Password privileges do not allow the operation");
  (715%Z, u "Specified Excel worksheet or named range is missing");
  (716%Z, u "A SQL query using DELETE, INSERT, or UPDATE is not allowed for ODBC import");
  (717%Z, u "There is not enough XML/XSL information to proceed with the import or export");
  (718%Z, u "Error in parsing XML file (from Xerces)");
  (719%Z, u "Error in transforming XML using XSL (from Xalan)");
  (720%Z, u "Error when exporting; intended format does not support repeating fields");
  (721%Z, u "Unknown error occurred in the parser or the transformer");
  (722%Z, u "Cannot import data into a file that has no fields");
  (723%Z, u "You do not have permission to add records to or modify records in the target table");
  (724%Z, u "You do not have permission to add records to the target table");
  (725%Z, u "You do not have permission to modify records in the target table");
  (726%Z, u "There are more records in the import file than in the target table. Not all records were imported");
  (727%Z, u "There are more records in the target table than in the import file. Not all records were updated");
  (729%Z, u "Errors occurred during import. Records could not be imported");
  (730%Z, u "Unsupported Excel version. (Convert file to Excel 7.0 (Excel 95), Excel 97, 2000, or XP format and try again)");
  (731%Z, u "The file you are importing from contains no data");
  (732%Z, u "This file cannot be inserted because it contains other files");
  (733%Z, u "A table cannot be imported into itself");
  (734%Z, u "This file type cannot be displayed as a picture");
  (735%Z, u "This file type cannot be displayed as a picture. It will be inserted and displayed as a file 800 Unable to create file on disk");
  (801%Z, u "Unable to create temporary file on System disk");
  (802%Z, u "Unable to open file");
  (803%Z, u "File is single user or host cannot be found");
  (804%Z, u "File cannot be opened as read-only in its current state");
  (805%Z, u "File is damaged; use Recover command");
  (806%Z, u "File cannot be opened with this version of FileMaker(tm) Pro");
  (807%Z, u "File is not a FileMaker(tm) Pro file or is severely damaged");
  (808%Z, u "Cannot open file because access privileges are damaged");
  (809%Z, u "Disk/volume is full");
  (810%Z, u "Disk/volume is locked");
  (811%Z, u "Temporary file cannot be opened as FileMaker(tm) Pro file");
  (813%Z, u "Record Synchronization error on network");
  (814%Z, u "File(s) cannot be opened because maximum number is open");
  (815%Z, u "Couldn't open lookup file");
  (816%Z, u "Unable to convert file");
  (817%Z, u "Unable to open file because it does not belong to this solution");
  (819%Z, u "Cannot save a local copy of a remote file");
  (820%Z, u "File is in the process of being closed");
  (821%Z, u "Host forced a disconnect");
  (822%Z, u "FMI files not found; reinstall missing files");
  (823%Z, u "Cannot set file to single-user, guests are connected");
  (824%Z, u "File is damaged or not a FileMaker(tm) file");
  (900%Z, u "General spelling engine error");
  (901%Z, u "Main spelling dictionary not installed");
  (902%Z, u "Could not launch the Help system");
  (903%Z, u "Command cannot be used in a shared file");
  (904%Z, u "Command can only be used in a file hosted under FileMaker(tm) Server");
  (905%Z, u "No active field selected; command can only be used if there is an active field");
  (920%Z, u "Can't initialize the spelling engine");
  (921%Z, u "User dictionary cannot be loaded for editing");
  (922%Z, u "User dictionary cannot be found");
  (923%Z, u "User dictionary is read-only");
  (951%Z, u "An unexpected error occurred (returned only by web-published databases)");
  (954%Z, u "Unsupported XML grammar (returned only by web-published databases)");
  (955%Z, u "No database name (returned only by web-published databases)");
  (956%Z, u "Maximum number of database sessions exceeded (returned only by web-published databases)");
  (957%Z, u "Conflicting commands (returned only by web-published databases)");
  (958%Z, u "Parameter missing (returned only by web-published databases)");
  (971%Z, u "The user name is invalid");
  (972%Z, u "The password is invalid");
  (973%Z, u "The database is invalid");
  (974%Z, u "Permission Denied");
  (975%Z, u "The field has restricted access");
  (976%Z, u "Security is disabled");
  (977%Z, u "Invalid client IP address");
  (978%Z, u "The number of allowed guests has been exceeded");
  (1200%Z, u "Generic calculation error");
  (1201%Z, u "Too few parameters in the function");
  (1202%Z, u "Too many parameters in the function");
  (1203%Z, u "Unexpected end of calculation");
  (1204%Z, u "Number, text constant, field name or " ++ [34] ++ u "(" ++ [34] ++ u " expected");
  (1205%Z, u "Comment is not terminated with " ++ [34] ++ u "*/" ++ [34]);
  (1206%Z, u "Text constant must end with a quotation mark");
  (1207%Z, u "Unbalanced parenthesis");
  (1208%Z, u "Operator missing, function not found or " ++ [34] ++ u "(" ++ [34] ++ u " not expected");
  (1209%Z, u "Name (such as field name or layout name) is missing");
  (1210%Z, u "Plug-in function has already been registered");
  (1211%Z, u "List usage is not allowed in this function");
  (1212%Z, u "An operator (for example, +, -, " ++ [42] ++ u ") is expected here");
  (1213%Z, u "This variable has already been defined in the Let function");
  (1214%Z, u "AVERAGE, COUNT, EXTEND, GETREPETITION, MAX, MIN, NPV, STDEV, SUM and GETSUMMARY: expression found where a field alone is needed");
  (1215%Z, u "This parameter is an invalid Get function parameter");
  (1216%Z, u "Only Summary fields allowed as first argument in GETSUMMARY");
  (1217%Z, u "Break field is invalid");
  (1218%Z, u "Cannot evaluate the number");
  (1219%Z, u "A field cannot be used in its own formula");
  (1220%Z, u "Field type must be normal or calculated");
  (1221%Z, u "Data type must be number, date, time, or timestamp");
  (1222%Z, u "Calculation cannot be stored");
  (1223%Z, u "The function referred to does not exist");
  (1400%Z, u "ODBC driver initialization failed; make sure the ODBC drivers are properly installed");
  (1401%Z, u "Failed to allocate environment (ODBC)");
  (1402%Z, u "Failed to free environment (ODBC)");
  (1403%Z, u "Failed to disconnect (ODBC)");
  (1404%Z, u "Failed to allocate connection (ODBC)");
  (1405%Z, u "Failed to free connection (ODBC)");
  (1406%Z, u "Failed check for SQL API (ODBC)");
  (1407%Z, u "Failed to allocate statement (ODBC)");
  (1408%Z, u "Extended error (ODBC)");
  (1413%Z, u "Failed communication link (ODBC)");
  (1414%Z, u "SQL statement is too long");
  (1450%Z, u "Action requires PHP privilege extension (" ++ [42] ++ u ")");
  (1451%Z, u "Action requires that current file be remote");
  (1501%Z, u "SMTP authentication failed");
  (1502%Z, u "Connection refused by SMTP server");
  (1503%Z, u "Error with SSL");
  (1504%Z, u "SMTP server requires the connection to be encrypted");
  (1505%Z, u "Specified authentication is not supported by SMTP server");
  (1506%Z, u "Email message(s) could not be sent successfully");
  (1507%Z, u "Unable to log in to the SMTP server");
  (1550%Z, u "Cannot load the plug-in, or the plug-in is not a valid plug-in");
  (1551%Z, u "Cannot install the plug-in; cannot delete an existing plug-in or write to the folder or disk");
  (1626%Z, u "Protocol is not supported");
  (1627%Z, u "Authentication failed");
  (1628%Z, u "There was an error with SSL");
  (1629%Z, u "Connection timed out; the timeout value is 60 seconds");
  (1630%Z, u "URL format is incorrect");
  (1631%Z, u "Connection failed");
  (1632%Z, u "Certificate cannot be authenticated by a supported certificate authority");
  (1633%Z, u "Certificate is valid but still causes an error (for example, the certificate has expired)")
].

(** [FMError(error)]: from an error code, or from a message. *)
Definition __init__ (error : pyval) : t :=
  match error with
  | VInt n =>
      let message := default (u "Unknown error code") (CODES !! n) in
      mk n (u "FileMaker Error " ++ str_Z n ++ u ": " ++ message)
  | _ => mk (-1) (str error)
  end.

End FMError.

(** ** Exceptions *)

Inductive exn :=
  | FMError_exn (e : FMError.t)
  | UnicodeEncodeError
  | UnicodeDecodeError
  | IndexError
  | KeyError (k : pystr)
  | ValueError
  | TypeError
  | XMLSyntaxError.

Inductive res (A : Type) :=
  | Ok (a : A)
  | Raise (e : exn).
Arguments Ok {A} a.
Arguments Raise {A} e.

#[global] Instance res_bind : MBind res := fun A B f m =>
  match m with
  | Ok a => f a
  | Raise e => Raise e
  end.

#[global] Instance res_ret : MRet res := fun A a => Ok a.

#[global] Instance res_fmap : FMap res := fun A B f m =>
  match m with
  | Ok a => Ok (f a)
  | Raise e => Raise e
  end.

(** ** html.escape and escape_unicode *)

(** [html.escape(s, quote)] of the standard library: five successive
    replacements, the ampersand first. *)
Definition escape (s : pystr) (quote : bool) : pystr :=
  let s := replace 38 (u "&amp;") s in
  let s := replace 60 (u "&lt;") s in
  let s := replace 62 (u "&gt;") s in
  if quote then
    let s := replace 34 (u "&quot;") s in
    let s := replace 39 (u "&#x27;") s in
    s
  else s.

(** [s.encode('ascii', 'xmlcharrefreplace')] *)
Definition encode_ascii_xmlcharrefreplace (s : pystr) : pybytes :=
  flat_map (fun c => if c <? 128 then [c] else u "&#" ++ str_N c ++ u ";") s.

(** [b.decode('ascii')] *)
Definition decode_ascii (b : pybytes) : res pystr :=
  if forallb (fun c => c <? 128) b then Ok b else Raise UnicodeDecodeError.

(** [escape_unicode(ustr, quote=True)] *)
Definition escape_unicode (ustr : pystr) (quote : bool) : res pystr :=
  decode_ascii
    (replace 39 (u "&#39;")
       (encode_ascii_xmlcharrefreplace (escape (strip ustr) quote))).

(** ** int() *)

(** White space [int()] skips around a literal: the Unicode spaces, and
    of the ASCII ones only tab to carriage return and blank. *)
Definition int_space (c : N) : bool :=
  isspace c && negb ((28 <=? c) && (c <=? 31)).

Fixpoint int_lskip (s : pystr) : pystr :=
  match s with
  | c :: s' => if int_space c then int_lskip s' else s
  | [] => []
  end.

(** The decimal digits [int()] reads are those of every script, not
    only the ASCII ones. They come in runs of ten, zero first; these are
    the code points of the zeros in Unicode 14.0.0, the character
    database of CPython 3.11, from the ASCII digits (48) to the segmented
    digits (U+1FBF0); the fullwidth digits start at U+FF10 (65296). *)
Definition decimal_zeros : list N :=
  [48; 1632; 1776; 1984; 2406; 2534; 2662; 2790; 2918; 3046; 3174; 3302;
   3430; 3558; 3664; 3792; 3872; 4160; 4240; 6112; 6160; 6470; 6608; 6784;
   6800; 6992; 7088; 7232; 7248; 42528; 43216; 43264; 43472; 43504; 43600;
   44016; 65296; 66720; 68912; 69734; 69872; 69942; 70096; 70384; 70736;
   70864; 71248; 71360; 71472; 71904; 72016; 72784; 73040; 73120; 92768;
   92864; 93008; 120782; 120792; 120802; 120812; 120822; 123200; 123632;
   125264; 130032].

(** [Py_UNICODE_TODECIMAL(c)]: the value of a decimal digit. *)
Definition todecimal (c : N) : option N :=
  (fun zero => c - zero)
    <$> find (fun zero => (zero <=? c) && (c <? zero + 10)) decimal_zeros.

(** Decimal digits with single underscores between them. *)
Fixpoint int_digits (acc : N) (prev_us : bool) (s : pystr) : option N :=
  match s with
  | [] => if prev_us then None else Some acc
  | c :: s' =>
      if c =? 95 then
        if prev_us then None else int_digits acc true s'
      else
        match todecimal c with
        | Some d => int_digits (10 * acc + d) false s'
        | None => None
        end
  end.

Definition int_unsigned (s : pystr) : option N :=
  match s with
  | [] => None
  | c :: _ => if c =? 95 then None else int_digits 0 false s
  end.

(** [int(s)] for a string; [ValueError] when it is not a literal. The
    string is first brought to ASCII (a Unicode space becomes a blank, a
    decimal digit its ASCII digit), then read as white space, sign,
    digits, white space. The interpreter's limit on the length of a
    literal (4300 digits unless configured otherwise) is left out. *)
Definition int_str (s : pystr) : res Z :=
  let s := reverse (int_lskip (reverse (int_lskip s))) in
  let '(neg, body) :=
    match s with
    | 45 :: s' => (true, s')
    | 43 :: s' => (false, s')
    | _ => (false, s)
    end in
  match int_unsigned body with
  | Some n => Ok (if neg : bool then - Z.of_N n else Z.of_N n)%Z
  | None => Raise ValueError
  end.

(** [int(x)] *)
Definition int (v : pyval) : res Z :=
  match v with
  | VNone => Raise TypeError
  | VInt n => Ok n
  | VStr s => int_str s
  end.

(** ** urllib.parse.urlencode *)

(** [s.encode('utf-8')] with the strict error handler: surrogates and
    values beyond U+10FFFF cannot be encoded. *)
Definition utf8_char (c : N) : option pybytes :=
  if c <? 128 then Some [c]
  else if c <? 2048 then Some [192 + c / 64; 128 + c mod 64]
  else if c <? 65536 then
    if (55296 <=? c) && (c <=? 57343) then None
    else Some [224 + c / 4096; 128 + (c / 64) mod 64; 128 + c mod 64]
  else if c <? 1114112 then
    Some [240 + c / 262144; 128 + (c / 4096) mod 64;
          128 + (c / 64) mod 64; 128 + c mod 64]
  else None.

Fixpoint utf8_encode (s : pystr) : res pybytes :=
  match s with
  | [] => Ok []
  | c :: s' =>
      match utf8_char c with
      | None => Raise UnicodeEncodeError
      | Some bs => rest ← utf8_encode s'; Ok (bs ++ rest)
      end
  end.

(** [s.encode('ascii')] *)
Definition encode_ascii (s : pystr) : res pybytes :=
  if forallb (fun c => c <? 128) s then Ok s else Raise UnicodeEncodeError.

(** Letters, digits and [_.-~] are never quoted (the tilde since
    Python 3.7). *)
Definition always_safe (b : N) : bool :=
  ((65 <=? b) && (b <=? 90)) || ((97 <=? b) && (b <=? 122))
  || ((48 <=? b) && (b <=? 57))
  || (b =? 95) || (b =? 46) || (b =? 45) || (b =? 126).

Definition hexdigit (d : N) : N := if d <? 10 then 48 + d else 55 + d.

(** One byte of [quote_from_bytes]: itself, or [%XX] in upper case. *)
Definition quoter (safe : pybytes) (b : N) : pystr :=
  if always_safe b || bool_decide (b ∈ safe) then [b]
  else [37; hexdigit (b / 16); hexdigit (b mod 16)].

Definition quote_from_bytes (bs : pybytes) (safe : pybytes) : pystr :=
  flat_map (quoter safe) bs.

Definition quote (s : pystr) (safe : pystr) : res pystr :=
  bs ← utf8_encode s; Ok (quote_from_bytes bs safe).

Definition quote_plus (s : pystr) (safe : pystr) : res pystr :=
  if bool_decide (32 ∉ s) then quote s safe
  else q ← quote s (safe ++ [32]); Ok (replace 32 [43] q).

Fixpoint join (sep : pystr) (l : list pystr) : pystr :=
  match l with
  | [] => []
  | [x] => x
  | x :: l' => x ++ sep ++ join sep l'
  end.

Fixpoint urlencode_items (query : list (pystr * pyval)) : res (list pystr) :=
  match query with
  | [] => Ok []
  | (k, v) :: query' =>
      k' ← quote_plus k [];
      v' ← quote_plus (str v) [];
      l ← urlencode_items query';
      Ok ((k' ++ u "=" ++ v') :: l)
  end.

(** [urlencode(query)] for a list of pairs. *)
Definition urlencode (query : list (pystr * pyval)) : res pystr :=
  l ← urlencode_items query; Ok (join (u "&") l).

(** ** base64.encodebytes *)

Definition b64char (n : N) : N :=
  if n <? 26 then 65 + n
  else if n <? 52 then 97 + (n - 26)
  else if n <? 62 then 48 + (n - 52)
  else if n =? 62 then 43 else 47.

(** [binascii.b2a_base64] without its final newline. *)
Fixpoint b2a_base64 (bs : pybytes) : pybytes :=
  match bs with
  | [] => []
  | [a] => [b64char (a / 4); b64char ((a mod 4) * 16); 61; 61]
  | [a; b] =>
      [b64char (a / 4); b64char ((a mod 4) * 16 + b / 16);
       b64char ((b mod 16) * 4); 61]
  | a :: b :: c :: rest =>
      [b64char (a / 4); b64char ((a mod 4) * 16 + b / 16);
       b64char ((b mod 16) * 4 + c / 64); b64char (c mod 64)]
      ++ b2a_base64 rest
  end.

(** Lines of 57 input bytes, each followed by a newline. *)
Fixpoint encodebytes_lines (fuel : nat) (s : pybytes) : pybytes :=
  match fuel, s with
  | O, _ | _, [] => []
  | S fuel', _ =>
      b2a_base64 (take 57 s) ++ [10] ++ encodebytes_lines fuel' (drop 57 s)
  end.

Definition encodebytes (s : pybytes) : pybytes :=
  encodebytes_lines (length s) s.

(** ** The request and the reply of the server *)

(** A request as [_commit] makes it: the address and the body given to
    [Request], and the headers in the order and under the names given to
    [add_header]. *)
Record Request := mkRequest {
  full_url : pystr;
  data : pybytes;
  headers : list (pystr * pybytes)
}.

(** [urllib.parse.unwrap(url)] *)
Definition unwrap (url : pystr) : pystr :=
  let url := strip url in
  let url :=
    if bool_decide (take 1 url = u "<")
       && bool_decide (drop (length url - 1) url = u ">")
    then strip (removelast (drop 1 url))
    else url in
  if bool_decide (take 4 url = u "URL:") then strip (drop 4 url) else url.

(** [s.rpartition(sep)] when [sep] occurs in [s]: what is before its last
    occurrence and what is after it. *)
Fixpoint rpartition (sep : N) (s : pystr) : option (pystr * pystr) :=
  match s with
  | [] => None
  | c :: s' =>
      match rpartition sep s' with
      | Some (before, after) => Some (c :: before, after)
      | None => if c =? sep then Some ([], s') else None
      end
  end.

(** [urllib.parse._splittag(url)] *)
Definition _splittag (url : pystr) : pystr * option pystr :=
  match rpartition 35 url with
  | Some (path, tag) => (path, Some tag)
  | None => (url, None)
  end.

(** [urllib.parse._splittype(url)]: the address has a type when it
    starts with one or more characters other than slash and colon,
    followed by a colon. The result here is what follows that colon; the
    type itself is not used by the program. *)
Fixpoint _splittype_from (seen : bool) (url : pystr) : option pystr :=
  match url with
  | [] => None
  | c :: rest =>
      if c =? 58 then (if seen then Some rest else None)
      else if c =? 47 then None
      else _splittype_from true rest
  end.

Definition _splittype (url : pystr) : option pystr :=
  _splittype_from false url.

(** The [full_url] property of [Request(url)], once the setter has
    unwrapped the address, split off the fragment and found the type:
    [_parse] raises ValueError (unknown url type) when there is none. *)
Definition Request_full_url (url : pystr) : res pystr :=
  let '(_full_url, fragment) := _splittag (unwrap url) in
  match _splittype _full_url with
  | None => Raise ValueError
  | Some _ =>
      Ok (match fragment with
          | Some (c :: tag) => _full_url ++ u "#" ++ c :: tag
          | _ => _full_url
          end)
  end.

Section Urllib.

(** [urllib.request.request_host(request)] for a request that has no
    headers yet, as a function of the request's [full_url]. It parses the
    address with [urlparse], which raises ValueError for a network
    location it does not accept (a bracket without its partner, brackets
    around something that is no IP address, a character that normalises
    to a delimiter); what is accepted differs between versions of the
    library. *)
Variable request_host : pystr -> res pystr.

(** [Request(url, data)] *)
Definition Request__init__ (url : pystr) (data : pybytes) : res Request :=
  full_url ← Request_full_url url;
  _ ← request_host full_url;
  Ok (mkRequest url data []).

End Urllib.

(** [request.add_header(key, val)]: the header is recorded as given. *)
Definition add_header (request : Request) (key : pystr) (val : pybytes)
    : Request :=
  mkRequest (full_url request) (data request) (headers request ++ [(key, val)]).

(** An element of the parsed document, as lxml presents it. *)
#[warnings="-register-all"]
Inductive element :=
  | Element (tag : pystr) (attrib : gmap pystr pystr)
            (text : option pystr) (children : list element).

Definition attrib (e : element) : gmap pystr pystr :=
  match e with Element _ a _ _ => a end.
Definition text (e : element) : option pystr :=
  match e with Element _ _ t _ => t end.
Definition children (e : element) : list element :=
  match e with Element _ _ _ c => c end.

(** What [urlopen(request)] and [etree.parse(fd)] give: one of the two
    errors of urllib that [_commit] catches (with [str(exc)], respectively
    [exc.reason] formatted), any other exception (a connection dropped
    while reading, a body that is not well-formed XML), which [_commit]
    does not catch, or the header text and the root of the document. *)
Inductive reply :=
  | HTTPError (str_exc : pystr)
  | URLError (reason : pystr)
  | OtherError (e : exn)
  | Response (info : pystr) (root : element).

(** [l[i]] *)
Definition getitem {A} (l : list A) (i : nat) : res A :=
  match l !! i with
  | Some x => Ok x
  | None => Raise IndexError
  end.

(** [d[k]] *)
Definition getkey {A} (d : gmap pystr A) (k : pystr) : res A :=
  match d !! k with
  | Some x => Ok x
  | None => Raise (KeyError k)
  end.

(** ** class FMField *)

(** [dtype] holds a Python type object, which the parser compares with
    [str] and calls on the text of a field. Two type objects are
    represented; the table below names only [str]. *)
Inductive pytype :=
  | T_str
  | T_int.

Definition is_str (t : pytype) : bool :=
  match t with
  | T_str => true
  | T_int => false
  end.

(** [t(v)]: calling a type on a string. *)
Definition call (t : pytype) (v : pystr) : res pyval :=
  match t with
  | T_str => Ok (VStr v)
  | T_int => n ← int_str v; Ok (VInt n)
  end.

Module FMField.

Record t := mk {
  name : pystr;
  maxrepeat : Z;
  emptyok : bool;
  dtype : pytype
}.

Definition DTYPES : gmap pystr pytype := list_to_map [
  (u "NUMBER", T_str);
  (u "TEXT", T_str);
  (u "DATE", T_str);
  (u "TIME", T_str);
  (u "TIMESTAMP", T_str);
  (u "CONTAINER", T_str);
  (u "CALCULATION", T_str);
  (u "SUMMARY", T_str)
].

Definition __init__ (attributes : gmap pystr pystr) : res t :=
  name ← getkey attributes (u "NAME");
  m ← getkey attributes (u "MAXREPEAT");
  maxrepeat ← int_str m;
  e ← getkey attributes (u "EMPTYOK");
  dtype ←
    match ty ← getkey attributes (u "TYPE"); getkey DTYPES ty with
    | Raise (KeyError _) => Ok T_str
    | r => r
    end;
  Ok (mk name maxrepeat (bool_decide (e = u "YES")) dtype).

End FMField.

(** ** class FMPXMLResult *)

Module FMPXMLResult.

Record t := mk {
  resultset : list (gmap pystr value);
  metadata : list FMField.t;
  product : gmap pystr pystr;
  database : gmap pystr pystr;
  url : pystr;
  httpinfo : pystr;
  errorcode : Z
}.

End FMPXMLResult.

(** ** Decoding the response document *)

(** [int(root[0].text)], and -1 when that raises. *)
Definition read_errorcode (root : element) : Z :=
  match e ← getitem (children root) 0;
        int (from_option VStr VNone (text e)) with
  | Ok n => n
  | Raise _ => (-1)%Z
  end.

(** The converter chosen for a field. *)
Definition convert_type (escrslt : bool) (md : FMField.t) (v : pystr) : res pyval :=
  if escrslt && is_str (FMField.dtype md)
  then s ← escape_unicode v true; Ok (VStr s)
  else call (FMField.dtype md) v.

(** The loop over the repetitions of a field, left at the first one
    without text. *)
Fixpoint read_repetitions (conv : pystr -> res pyval) (cs : list element)
    : res (list pyval) :=
  match cs with
  | [] => Ok []
  | c :: cs' =>
      match text c with
      | None => Ok []
      | Some v => x ← conv v; l ← read_repetitions conv cs'; Ok (x :: l)
      end
  end.

(** The value stored for one field of a row. *)
Definition read_value (escrslt : bool) (md : FMField.t) (cn : element) : res value :=
  if (FMField.maxrepeat md =? 1)%Z then
    c ← getitem (children cn) 0;
    match text c with
    | None => Ok (Scalar VNone)
    | Some v => x ← convert_type escrslt md v; Ok (Scalar x)
    end
  else
    l ← read_repetitions (convert_type escrslt md) (children cn);
    Ok (Seq l).

Fixpoint read_fields (escrslt : bool) (record : gmap pystr value)
    (pairs : list (FMField.t * element)) : res (gmap pystr value) :=
  match pairs with
  | [] => Ok record
  | (md, cn) :: pairs' =>
      v ← read_value escrslt md cn;
      read_fields escrslt (<[FMField.name md := v]> record) pairs'
  end.

Definition read_row (escrslt : bool) (metadata : list FMField.t) (row : element)
    : res (gmap pystr value) :=
  m ← getkey (attrib row) (u "MODID");
  modid ← int_str m;
  r ← getkey (attrib row) (u "RECORDID");
  recid ← int_str r;
  let record : gmap pystr value :=
    <[u "RECORDID" := Scalar (VInt recid)]>
      (<[u "MODID" := Scalar (VInt modid)]> ∅) in
  read_fields escrslt record (zip metadata (children row)).

(** ** class FM: the request builder *)

Module FM.

Record t := mk {
  _server : pystr;
  _port : Z;
  _protocol : pystr;
  _escrslt : bool;
  _dbname : pystr;
  _dbuser : pystr;
  _dbpasswd : pystr;
  _dbdata : list (pystr * pyval);
  _dbparams : list (pystr * pyval);
  _maxret : pyval
}.

Definition __init__ (server : pystr) (port : Z) (protocol : pystr) : t :=
  {| _server := server; _port := port; _protocol := protocol;
     _escrslt := false; _dbname := []; _dbuser := []; _dbpasswd := [];
     _dbdata := []; _dbparams := []; _maxret := VInt 50 |}.

Definition with_dbdata (self : t) (l : list (pystr * pyval)) : t :=
  mk (_server self) (_port self) (_protocol self) (_escrslt self)
     (_dbname self) (_dbuser self) (_dbpasswd self) l (_dbparams self)
     (_maxret self).

Definition with_dbparams (self : t) (l : list (pystr * pyval)) : t :=
  mk (_server self) (_port self) (_protocol self) (_escrslt self)
     (_dbname self) (_dbuser self) (_dbpasswd self) (_dbdata self) l
     (_maxret self).

Definition with_maxret (self : t) (m : pyval) : t :=
  mk (_server self) (_port self) (_protocol self) (_escrslt self)
     (_dbname self) (_dbuser self) (_dbpasswd self) (_dbdata self)
     (_dbparams self) m.

Definition with_escrslt (self : t) (b : bool) : t :=
  mk (_server self) (_port self) (_protocol self) b
     (_dbname self) (_dbuser self) (_dbpasswd self) (_dbdata self)
     (_dbparams self) (_maxret self).

Definition with_credentials (self : t) (user passwd : pystr) : t :=
  mk (_server self) (_port self) (_protocol self) (_escrslt self)
     (_dbname self) user passwd (_dbdata self) (_dbparams self)
     (_maxret self).

Definition _dbparams_append (self : t) (arg : pystr * pyval) : t :=
  with_dbparams self (_dbparams self ++ [(arg.1, arg.2)]).

Definition _dbdata_append (self : t) (arg : pystr * pyval) : t :=
  with_dbdata self (_dbdata self ++ [(arg.1, arg.2)]).

Definition set_db_data (self : t) (name layout maxret response : pyval) : t :=
  let self := with_dbdata self [] in
  let self := _dbdata_append self (u "-db", name) in
  let self := _dbdata_append self (u "-lay", layout) in
  let self :=
    if truthy response
    then _dbdata_append self (u "-lay.response", response)
    else self in
  with_maxret self maxret.

Definition set_db_password (self : t) (username password : pystr) : t :=
  with_credentials self username password.

Definition set_script (self : t) (name option : pyval) : t :=
  let key := u "-script" in
  let key :=
    match option with
    | VStr o =>
        if bool_decide (o = u "prefind") || bool_decide (o = u "presort")
        then key ++ u "." ++ o else key
    | _ => key
    end in
  _dbparams_append self (key, name).

Definition set_record_id (self : t) (recid : pyval) : t :=
  _dbparams_append self (u "-recid", recid).

Definition set_modifier_id (self : t) (modid : pyval) : t :=
  _dbparams_append self (u "-modid", modid).

Definition set_logical_or (self : t) : t :=
  _dbparams_append self (u "-lop", VStr (u "or")).

Definition set_group_size (self : t) (maxret : pyval) : res t :=
  n ← int maxret; Ok (with_maxret self (VInt n)).

Definition set_skip_records (self : t) (skip : pyval) : res t :=
  n ← int skip;
  Ok (if negb (n =? 0)%Z then _dbparams_append self (u "-skip", skip)
      else self).

Definition set_escape (self : t) (value : bool) : t :=
  with_escrslt self value.

Definition add_db_param (self : t) (field : pystr) (value : pyval)
    (op : option pystr) : t :=
  let self := _dbparams_append self (field, value) in
  match op with
  | Some o =>
      if negb (bool_decide (o = []))
      then _dbparams_append self (field ++ u ".op", VStr o)
      else self
  | None => self
  end.

Definition add_db_params (self : t) (fieldvalues : list (pystr * pyval)) : t :=
  foldl (fun self fv => add_db_param self fv.1 fv.2 None) self fieldvalues.

Definition add_sort_param (self : t) (field order : pyval) (priority : Z) : t :=
  let self :=
    _dbparams_append self (u "-sortfield." ++ str_Z priority, field) in
  _dbparams_append self (u "-sortorder." ++ str_Z priority, order).

(** [FM.URL.format( **self.__dict__ )] *)
Definition URL (self : t) : pystr :=
  _protocol self ++ u "://" ++ _server self ++ u ":" ++ str_Z (_port self)
  ++ u "/fmi/xml/FMPXMLRESULT.xml".

Section Transport.

(** The library's verdict on the network location of the address. *)
Variable request_host : pystr -> res pystr.

(** The server, seen through [urlopen] and [etree.parse]. *)
Variable urlopen : Request -> reply.

(** The first part of [_commit], up to the request that is sent. The
    state returned is the one the client is left in. *)
Definition _commit_request (self : t) (action : pystr) : t * res Request :=
  let self := _dbparams_append self (u "-max", _maxret self) in
  let url := URL self in
  match urlencode (_dbdata self ++ _dbparams self) with
  | Raise e => (self, Raise e)
  | Ok query =>
      let data := query ++ u "&-" ++ action in
      let self := with_dbparams self [] in
      (self,
       body ← encode_ascii data;
       request ← Request__init__ request_host url body;
       let request := add_header request (u "User-Agent") (u "Fmkr.py") in
       let auth := _dbuser self ++ u ":" ++ _dbpasswd self in
       auth ← utf8_encode auth;
       let auth := u "Basic " ++ removelast (encodebytes auth) in
       Ok (add_header request (u "Authorization") auth))
  end.

(** The second part of [_commit]: the reply is turned into a result or
    an exception. The body of the request is the ASCII encoding of
    [data], so it has the same characters. *)
Definition _commit_response (self : t) (request : Request) (r : reply)
    : res FMPXMLResult.t :=
  match r with
  | HTTPError str_exc => Raise (FMError_exn (FMError.__init__ (VStr str_exc)))
  | URLError reason =>
      Raise (FMError_exn (FMError.__init__ (VStr (u "URL Error: " ++ reason))))
  | OtherError e => Raise e
  | Response info root =>
      let url := full_url request ++ u "?" ++ data request in
      let errorcode := read_errorcode root in
      if negb (errorcode =? 0)%Z
      then Raise (FMError_exn (FMError.__init__ (VInt errorcode)))
      else
        e1 ← getitem (children root) 1;
        let product : gmap pystr pystr := attrib e1 ∪ ∅ in
        e2 ← getitem (children root) 2;
        let database : gmap pystr pystr := attrib e2 ∪ ∅ in
        e3 ← getitem (children root) 3;
        metadata ← mapM (fun field => FMField.__init__ (attrib field))
                     (children e3);
        e4 ← getitem (children root) 4;
        resultset ← mapM (read_row (_escrslt self) metadata) (children e4);
        Ok (FMPXMLResult.mk resultset metadata product database url info
              errorcode)
  end.

Definition _commit (self : t) (action : pystr) : t * res FMPXMLResult.t :=
  let '(self, request) := _commit_request self action in
  (self, request ← request; _commit_response self request (urlopen request)).

Definition fm_find (self : t) := _commit self (u "find").
Definition fm_delete (self : t) := _commit self (u "delete").

End Transport.

End FM.

(** ** Decoding form data

    The program only encodes. The decoder below is the reading side of
    [application/x-www-form-urlencoded], in the manner of
    [urllib.parse.parse_qsl(qs, keep_blank_values=True)], and is used to
    state what a server reads out of a request body. It is strict: a
    malformed escape or byte sequence gives [None]. *)

Definition hexval (c : N) : option N :=
  if (48 <=? c) && (c <=? 57) then Some (c - 48)
  else if (65 <=? c) && (c <=? 70) then Some (c - 55)
  else if (97 <=? c) && (c <=? 102) then Some (c - 87)
  else None.

Fixpoint unquote_to_bytes (s : pystr) : option pybytes :=
  match s with
  | [] => Some []
  | c :: s' =>
      if c =? 37 then
        match s' with
        | h :: l :: s'' =>
            a ← hexval h; b ← hexval l;
            rest ← unquote_to_bytes s''; Some ((16 * a + b) :: rest)
        | _ => None
        end
      else if c <? 128 then rest ← unquote_to_bytes s'; Some (c :: rest)
      else None
  end.

(** One character is read off the front; it is accepted when the bytes
    read are its encoding. *)
Definition utf8_accept (c : N) (bs : pybytes) : option N :=
  if bool_decide (utf8_char c = Some bs) then Some c else None.

Fixpoint utf8_decode (bs : pybytes) : option pystr :=
  match bs with
  | [] => Some []
  | b0 :: r0 =>
      if b0 <? 128 then rest ← utf8_decode r0; Some (b0 :: rest)
      else
        match r0 with
        | [] => None
        | b1 :: r1 =>
            if b0 <? 224 then
              c ← utf8_accept ((b0 - 192) * 64 + (b1 - 128)) [b0; b1];
              rest ← utf8_decode r1; Some (c :: rest)
            else
              match r1 with
              | [] => None
              | b2 :: r2 =>
                  if b0 <? 240 then
                    c ← utf8_accept ((b0 - 224) * 4096 + (b1 - 128) * 64
                                     + (b2 - 128)) [b0; b1; b2];
                    rest ← utf8_decode r2; Some (c :: rest)
                  else
                    match r2 with
                    | [] => None
                    | b3 :: r3 =>
                        c ← utf8_accept ((b0 - 240) * 262144
                                         + (b1 - 128) * 4096
                                         + (b2 - 128) * 64 + (b3 - 128))
                                        [b0; b1; b2; b3];
                        rest ← utf8_decode r3; Some (c :: rest)
                    end
              end
        end
  end.

Definition unquote_plus (s : pystr) : option pystr :=
  bs ← unquote_to_bytes (replace 43 [32] s); utf8_decode bs.

(** [s.split(sep)] for a one-character separator. *)
Fixpoint split (sep : N) (s : pystr) : list pystr :=
  match s with
  | [] => [[]]
  | c :: s' =>
      if c =? sep then [] :: split sep s'
      else
        match split sep s' with
        | x :: l => (c :: x) :: l
        | [] => [[c]]
        end
  end.

(** A piece [name=value] is cut at its first [=]; without one the value
    is blank. *)
Fixpoint cut (sep : N) (s : pystr) : pystr * pystr :=
  match s with
  | [] => ([], [])
  | c :: s' =>
      if c =? sep then ([], s')
      else let '(a, b) := cut sep s' in (c :: a, b)
  end.

Fixpoint parse_pieces (pieces : list pystr) : option (list (pystr * pystr)) :=
  match pieces with
  | [] => Some []
  | [] :: pieces' => parse_pieces pieces'
  | piece :: pieces' =>
      let '(name, value) := cut 61 piece in
      name ← unquote_plus name;
      value ← unquote_plus value;
      rest ← parse_pieces pieces';
      Some ((name, value) :: rest)
  end.

Definition parse_qsl (qs : pystr) : option (list (pystr * pystr)) :=
  parse_pieces (split 38 qs).

(** What [quote_plus] makes of one byte, the two branches taken together. *)
Definition plus_quoter (b : N) : pystr :=
  if b =? 32 then [43] else quoter [] b.

(** The pairs a faithful decoder reads back: keys, with values as text. *)
Definition as_text (query : list (pystr * pyval)) : list (pystr * pystr) :=
  (fun kv => (kv.1, str kv.2)) <$> query.

(** ** Wording of the specification *)



(** The texts of the sub-elements in order, up to the first sub-element
    that has none. *)
Fixpoint texts_before_gap (cs : list element) : list pystr :=
  match cs with
  | [] => []
  | c :: cs' =>
      match text c with
      | Some v => v :: texts_before_gap cs'
      | None => []
      end
  end.

(** The escape transform as one pass over the stripped text: each
    character is kept, replaced by its entity, or by its numeric
    character reference. *)
Definition escape_char (quote : bool) (c : N) : pystr :=
  if c =? 38 then u "&amp;"
  else if c =? 60 then u "&lt;"
  else if c =? 62 then u "&gt;"
  else if c =? 34 then (if quote then u "&quot;" else [c])
  else if c =? 39 then (if quote then u "&#x27;" else u "&#39;")
  else if c <? 128 then [c]
  else u "&#" ++ str_N c ++ u ";".

Definition escaped (quote : bool) (s : pystr) : pystr :=
  flat_map (escape_char quote) (strip s).

(** ** Sample client, documents and server *)

Module Sample.

Definition El (tag : string) (attrs : list (string * string))
    (text : option pystr) (children : list element) : element :=
  Element (u tag) (list_to_map ((fun kv => (u kv.1, u kv.2)) <$> attrs))
          text children.

Definition field (name type maxrepeat : string) : element :=
  El "FIELD" [("EMPTYOK", "YES"); ("MAXREPEAT", maxrepeat);
              ("NAME", name); ("TYPE", type)] None [].

Definition DATA (text : option pystr) : element := El "DATA" [] text [].

(** A document with status [code], fields LAST (one value) and PHONE
    (three repetitions), and one record. *)
Definition document (code : option pystr) (last : pystr)
    (phones : list (option pystr)) : element :=
  El "FMPXMLRESULT" [] None [
    El "ERRORCODE" [] code [];
    El "PRODUCT" [("NAME", "FileMaker Web Publishing Engine")] None [];
    El "DATABASE" [("NAME", "Test"); ("LAYOUT", "data entry")] None [];
    El "METADATA" [] None
       [field "LAST" "TEXT" "1"; field "PHONE" "TEXT" "3"];
    El "RESULTSET" [("FOUND", "1")] None [
      El "ROW" [("MODID", "2"); ("RECORDID", "7")] None [
        El "COL" [] None [DATA (Some last)];
        El "COL" [] None (DATA <$> phones)]]].

Definition server (root : element) (request : Request) : reply :=
  Response (u "Content-Type: text/xml") root.

(** A library that takes every address to be the sample server's. *)
Definition request_host (url : pystr) : res pystr :=
  Ok (u "filemaker.domain.com").

Definition client : FM.t :=
  FM.set_db_data (FM.__init__ (u "filemaker.domain.com") 80 (u "http"))
    (VStr (u "Test")) (VStr (u "data entry")) (VInt 5) VNone.

Definition request : Request :=
  mkRequest (u "http://filemaker.domain.com:80/fmi/xml/FMPXMLRESULT.xml")
    (u "-db=Test&-lay=data+entry&-max=5&-find")
    [(u "User-Agent", u "Fmkr.py"); (u "Authorization", u "Basic Og==")].

End Sample.

(** ** Predicates on text *)

(** A code point UTF-8 can encode: up to U+10FFFF and no surrogate. *)
Definition scalar_value (c : N) : bool :=
  (c <? 55296) || ((57343 <? c) && (c <? 1114112)).

Definition encodable (s : pystr) : bool := forallb scalar_value s.

Definition encodable_pair (kv : pystr * pyval) : bool :=
  encodable kv.1 && encodable (str kv.2).

Definition is_ascii (s : pystr) : bool := forallb (fun c => c <? 128) s.

(** An ASCII character the escape transform has no entity for. *)
Definition plain (c : N) : bool :=
  (c <? 128)
  && negb ((c =? 38) || (c =? 60) || (c =? 62) || (c =? 34) || (c =? 39)).

(** * Properties *)

Arguments u : simpl never.
Arguments str_Z : simpl never.
Arguments str_N : simpl never.
Arguments urlencode : simpl never.
Arguments encodebytes : simpl never.
Arguments FM.URL : simpl never.

Ltac Zify.zify_post_hook ::= Z.to_euclidean_division_equations.

(** Computation rules of the exception monad. *)
Ltac res_red :=
  unfold mbind, mret, fmap, res_bind, res_ret, res_fmap in *;
  cbv beta iota in *.

Example escape_unicode_sample :
  escape_unicode (u " <a&b> " ++ [233; 39; 32]) true
  = Ok (u "&lt;a&amp;b&gt; &#233;&#x27;").
Proof. reflexivity. Qed.

Example urlencode_sample :
  urlencode [(u "-db", VStr (u "Test")); (u "-lay", VStr (u "data entry"));
             (u "LAST", VStr [68; 246; 38]); (u "-max", VInt 50)]
  = Ok (u "-db=Test&-lay=data+entry&LAST=D%C3%B6%26&-max=50").
Proof. reflexivity. Qed.

Example int_str_sample :
  int_str (u " -1_0 ") = Ok (-10)%Z /\ int_str (u "4 01") = Raise ValueError
  /\ int_str (u "401") = Ok 401%Z /\ int_str [] = Raise ValueError.
Proof. repeat split; reflexivity. Qed.

(** Digits of other scripts count: fullwidth 401, Arabic-Indic 42 between
    no-break spaces. Superscript two is a digit, but no decimal digit. *)
Example int_str_unicode :
  int_str [65300; 65296; 65297] = Ok 401%Z
  /\ int_str [160; 1636; 1634; 160] = Ok 42%Z
  /\ int_str [65296] = Ok 0%Z
  /\ int_str [178] = Raise ValueError.
Proof. repeat split; reflexivity. Qed.

Example parse_qsl_sample :
  parse_qsl (u "-db=Test&-lay=data+entry&LAST=D%C3%B6%26&A=&-max=50&-find")
  = Some [(u "-db", u "Test"); (u "-lay", u "data entry");
          (u "LAST", [68; 246; 38]); (u "A", []); (u "-max", u "50");
          (u "-find", [])].
Proof. reflexivity. Qed.

(** ** The end-to-end scenario of the documentation *)

Example find_doe :
  let fmi := FM.add_db_param Sample.client (u "LAST") (VStr (u "Doe"))
               (Some (u "bw")) in
  let doc := Sample.document (Some (u "0")) (u "Doe") [] in
  FMPXMLResult.resultset
    <$> (FM.fm_find Sample.request_host (Sample.server doc) fmi).2
  = Ok [ {[ u "RECORDID" := Scalar (VInt 7); u "MODID" := Scalar (VInt 2);
            u "LAST" := Scalar (VStr (u "Doe")); u "PHONE" := Seq [] ]} ].
Proof. vm_compute. reflexivity. Qed.

Lemma Ok_inj {A} (a b : A) : Ok a = Ok b -> a = b.
Proof. by intros [=]. Qed.

(** ** Strings *)

Lemma flat_map_flat_map {A B C} (f : A -> list B) (g : B -> list C) (l : list A) :
  flat_map g (flat_map f l) = flat_map (fun x => flat_map g (f x)) l.
Proof.
  induction l as [|x l IH]; [done|]. cbn [flat_map].
  by rewrite flat_map_app, IH.
Qed.

Lemma flat_map_pointwise {A B} (f g : A -> list B) (l : list A) :
  (forall x, f x = g x) -> flat_map f l = flat_map g l.
Proof. intros H. induction l as [|x l IH]; [done|]. cbn. by rewrite H, IH. Qed.

Lemma replace_absent (old : N) (new s : list N) : old ∉ s -> replace old new s = s.
Proof.
  induction s as [|c s IH]; [done|]. intros H. apply not_elem_of_cons in H as [Hc Hs].
  unfold replace in *. cbn [flat_map]. rewrite (IH Hs).
  by destruct (N.eqb_spec c old).
Qed.

Lemma replace_app (old : N) (new s t : list N) :
  replace old new (s ++ t) = replace old new s ++ replace old new t.
Proof. apply flat_map_app. Qed.

Lemma uint_digits_range (d : Decimal.uint) :
  Forall (fun c => 48 <= c <= 57) (uint_digits d).
Proof. induction d; constructor; try done; lia. Qed.

Lemma str_N_range (n : N) : Forall (fun c => 48 <= c <= 57) (str_N n).
Proof. apply uint_digits_range. Qed.

Lemma lstrip_suffix (s : pystr) : exists w, s = w ++ lstrip s.
Proof.
  induction s as [|c s [w IH]]; [by exists []|]. cbn.
  destruct (isspace c); [|by exists []].
  exists (c :: w). cbn. by rewrite <- IH.
Qed.

Lemma lstrip_head (s : pystr) (c : N) : head (lstrip s) = Some c -> isspace c = false.
Proof.
  induction s as [|x s IH]; [done|]. cbn.
  destruct (isspace x) eqn:Hx; [done|]. by intros [= <-].
Qed.

Lemma lstrip_id (s : pystr) :
  (forall c, head s = Some c -> isspace c = false) -> lstrip s = s.
Proof. destruct s as [|x s]; [done|]. intros H. cbn. by rewrite (H x). Qed.

Lemma rstrip_prefix (s : pystr) : exists w, s = rstrip s ++ w.
Proof.
  unfold rstrip. destruct (lstrip_suffix (reverse s)) as [w Hw].
  exists (reverse w). rewrite <- reverse_app, <- Hw. by rewrite reverse_involutive.
Qed.

Lemma rstrip_last (s : pystr) (c : N) : last (rstrip s) = Some c -> isspace c = false.
Proof. unfold rstrip. rewrite last_reverse. apply lstrip_head. Qed.

Lemma rstrip_id (s : pystr) :
  (forall c, last s = Some c -> isspace c = false) -> rstrip s = s.
Proof.
  intros H. unfold rstrip. rewrite lstrip_id; [apply reverse_involutive|].
  intros c. rewrite head_reverse. apply H.
Qed.

Lemma strip_head (s : pystr) (c : N) : head (strip s) = Some c -> isspace c = false.
Proof.
  unfold strip. destruct (rstrip_prefix (lstrip s)) as [w Hw].
  destruct (rstrip (lstrip s)) as [|x t] eqn:Hr; [done|].
  intros [= ->]. apply (lstrip_head s). by rewrite Hw.
Qed.

Lemma strip_last (s : pystr) (c : N) : last (strip s) = Some c -> isspace c = false.
Proof. apply rstrip_last. Qed.

Lemma strip_idemp (s : pystr) : strip (strip s) = strip s.
Proof.
  unfold strip at 1. rewrite (lstrip_id (strip s)) by apply strip_head.
  apply rstrip_id, strip_last.
Qed.

(** What [strip] removes is white space, at the two ends only. *)
Lemma lstrip_split (s : pystr) :
  exists w, s = w ++ lstrip s /\ Forall (fun c => isspace c = true) w.
Proof.
  induction s as [|c s (w & IH & Hw)]; [by exists []|]. cbn.
  destruct (isspace c) eqn:Hc; [|by exists []].
  exists (c :: w). split; [cbn; by rewrite <- IH|by constructor].
Qed.

Lemma rstrip_split (s : pystr) :
  exists w, s = rstrip s ++ w /\ Forall (fun c => isspace c = true) w.
Proof.
  unfold rstrip. destruct (lstrip_split (reverse s)) as (w & Hw & Hs).
  exists (reverse w). split; [|by apply Forall_reverse].
  rewrite <- reverse_app, <- Hw. by rewrite reverse_involutive.
Qed.

Lemma strip_split (s : pystr) :
  exists l r, s = l ++ strip s ++ r
    /\ Forall (fun c => isspace c = true) l
    /\ Forall (fun c => isspace c = true) r.
Proof.
  destruct (lstrip_split s) as (l & Hl & Hsl).
  destruct (rstrip_split (lstrip s)) as (r & Hr & Hsr).
  exists l, r. unfold strip. by rewrite <- Hr.
Qed.

Lemma lstrip_spaces (w s : pystr) :
  Forall (fun c => isspace c = true) w -> lstrip (w ++ s) = lstrip s.
Proof. induction 1 as [|c w Hc _ IH]; [done|]. cbn. by rewrite Hc. Qed.

Lemma rstrip_spaces (w s : pystr) :
  Forall (fun c => isspace c = true) w -> rstrip (s ++ w) = rstrip s.
Proof.
  intros H. unfold rstrip. rewrite reverse_app, lstrip_spaces; [done|].
  by apply Forall_reverse.
Qed.

Lemma lstrip_all_spaces (w : pystr) :
  Forall (fun c => isspace c = true) w -> lstrip w = [].
Proof. intros H. rewrite <- (app_nil_r w). by rewrite lstrip_spaces. Qed.

(** A text between two runs of white space, which itself neither starts
    nor ends with white space, is what [strip] returns. *)
Lemma strip_core (l core r : pystr) :
  Forall (fun c => isspace c = true) l ->
  Forall (fun c => isspace c = true) r ->
  (forall c, head core = Some c \/ last core = Some c -> isspace c = false) ->
  strip (l ++ core ++ r) = core.
Proof.
  intros Hl Hr Hcore. unfold strip. rewrite lstrip_spaces by done.
  destruct core as [|x core].
  - rewrite app_nil_l, lstrip_all_spaces by done. reflexivity.
  - rewrite lstrip_id.
    2:{ intros c [= <-]. apply Hcore. by left. }
    rewrite rstrip_spaces by done. apply rstrip_id.
    intros c Hc. apply Hcore. by right.
Qed.

(** ** The escape transform, character by character *)

Lemma escape_char_spec (quote : bool) (c : N) :
  replace 39 (u "&#39;")
    (encode_ascii_xmlcharrefreplace (escape [c] quote))
  = escape_char quote c.
Proof.
  unfold escape_char.
  destruct (N.eqb_spec c 38) as [->|H38]; [by destruct quote|].
  destruct (N.eqb_spec c 60) as [->|H60]; [by destruct quote|].
  destruct (N.eqb_spec c 62) as [->|H62]; [by destruct quote|].
  destruct (N.eqb_spec c 34) as [->|H34]; [by destruct quote|].
  destruct (N.eqb_spec c 39) as [->|H39]; [by destruct quote|].
  assert (escape [c] quote = [c]) as ->.
  { unfold escape, replace. cbn [flat_map].
    apply N.eqb_neq in H38, H60, H62, H34, H39.
    rewrite H38.
    destruct quote;
      repeat (rewrite ?app_nil_r; cbn [flat_map];
              first [rewrite H60 | rewrite H62 | rewrite H34 | rewrite H39]);
      by rewrite ?app_nil_r. }
  unfold encode_ascii_xmlcharrefreplace. cbn [flat_map]. rewrite app_nil_r.
  apply replace_absent. destruct (c <? 128).
  - by intros ?%list_elem_of_singleton.
  - assert ((39 ∉ u "&#") /\ (39 ∉ u ";")) as [H1 H2] by (split; compute_done).
    intros [H|[H|H]%elem_of_app]%elem_of_app; [done| |done].
    apply (proj1 (Forall_forall _ _) (str_N_range c)) in H. lia.
Qed.

Lemma escape_app (quote : bool) (s t : pystr) :
  escape (s ++ t) quote = escape s quote ++ escape t quote.
Proof. unfold escape. cbv zeta. destruct quote; by rewrite !replace_app. Qed.

Lemma escape_flat_map (quote : bool) (s : pystr) :
  escape s quote = flat_map (fun c => escape [c] quote) s.
Proof.
  induction s as [|c s IH]; [by destruct quote|].
  change (c :: s) with ([c] ++ s). rewrite escape_app, IH.
  cbn [flat_map app]. done.
Qed.

Lemma escape_char_ascii (quote : bool) (c : N) :
  forallb (fun c => c <? 128) (escape_char quote c) = true.
Proof.
  unfold escape_char.
  destruct (N.eqb_spec c 38) as [->|_]; [done|].
  destruct (N.eqb_spec c 60) as [->|_]; [done|].
  destruct (N.eqb_spec c 62) as [->|_]; [done|].
  destruct (N.eqb_spec c 34) as [->|_]; [by destruct quote|].
  destruct (N.eqb_spec c 39) as [->|_]; [by destruct quote|].
  destruct (c <? 128) eqn:Hc; [cbn; by rewrite Hc|].
  rewrite !forallb_app. repeat (apply andb_true_intro; split); try done.
  apply forallb_forall. intros x Hx%list_elem_of_In.
  apply (proj1 (Forall_forall _ _) (str_N_range c)) in Hx.
  apply N.ltb_lt. lia.
Qed.

Lemma escape_unicode_escaped (ustr : pystr) (quote : bool) :
  escape_unicode ustr quote = Ok (escaped quote ustr).
Proof.
  unfold escape_unicode, escaped.
  assert (replace 39 (u "&#39;")
            (encode_ascii_xmlcharrefreplace (escape (strip ustr) quote))
          = flat_map (escape_char quote) (strip ustr)) as ->.
  { rewrite escape_flat_map. unfold encode_ascii_xmlcharrefreplace, replace.
    rewrite !flat_map_flat_map. apply flat_map_pointwise. intros c.
    rewrite <- escape_char_spec. unfold encode_ascii_xmlcharrefreplace, replace.
    by rewrite flat_map_flat_map. }
  unfold decode_ascii.
  assert (forallb (fun c => c <? 128) (flat_map (escape_char quote) (strip ustr))
          = true) as ->; [|done].
  induction (strip ustr) as [|c t IH]; [done|]. cbn [flat_map].
  by rewrite forallb_app, escape_char_ascii, IH.
Qed.

(** ** The encoder raises nothing but UnicodeEncodeError *)

Lemma utf8_encode_Raise (s : pystr) (e : exn) :
  utf8_encode s = Raise e -> e = UnicodeEncodeError.
Proof.
  induction s as [|c s IH]; [done|]. cbn [utf8_encode].
  destruct (utf8_char c); [|by intros [= <-]].
  destruct (utf8_encode s); res_red; [done|]. intros [= <-]. by apply IH.
Qed.

Lemma quote_Raise (s safe : pystr) (e : exn) :
  quote s safe = Raise e -> e = UnicodeEncodeError.
Proof.
  unfold quote. destruct (utf8_encode s) eqn:H; res_red; [done|].
  intros [= <-]. by eapply utf8_encode_Raise.
Qed.

Lemma quote_plus_Raise (s safe : pystr) (e : exn) :
  quote_plus s safe = Raise e -> e = UnicodeEncodeError.
Proof.
  unfold quote_plus. case_bool_decide; [apply quote_Raise|].
  destruct (quote s _) eqn:Hq; res_red; [done|].
  intros [= <-]. by eapply quote_Raise.
Qed.

Lemma urlencode_items_Raise (query : list (pystr * pyval)) (e : exn) :
  urlencode_items query = Raise e -> e = UnicodeEncodeError.
Proof.
  induction query as [|[k v] query IH]; [done|]. cbn [urlencode_items].
  destruct (quote_plus k []) eqn:Hk; res_red;
    [|intros [= <-]; by eapply quote_plus_Raise].
  destruct (quote_plus (str v) []) eqn:Hv; res_red;
    [|intros [= <-]; by eapply quote_plus_Raise].
  destruct (urlencode_items query); res_red; [done|].
  intros [= <-]. by apply IH.
Qed.

Lemma urlencode_Raise (query : list (pystr * pyval)) (e : exn) :
  urlencode query = Raise e -> e = UnicodeEncodeError.
Proof.
  unfold urlencode. destruct (urlencode_items query) eqn:H; res_red; [done|].
  intros [= <-]. by eapply urlencode_items_Raise.
Qed.

(** ** Request builder *)

(** C6: selecting a database and layout replaces the Database Selection
    by the pairs [-db], [-lay] and, when a response layout is given,
    [-lay.response]; it sets the max-records limit to the given value and
    leaves the Pending Parameters (and everything else) as they were. *)
Theorem set_db_data_frame (self : FM.t) (name layout maxret response : pyval) :
  let self' := FM.set_db_data self name layout maxret response in
  FM._dbdata self'
  = [(u "-db", name); (u "-lay", layout)]
    ++ (if truthy response then [(u "-lay.response", response)] else [])
  /\ FM._maxret self' = maxret
  /\ FM._dbparams self' = FM._dbparams self
  /\ FM._escrslt self' = FM._escrslt self
  /\ (FM._dbuser self', FM._dbpasswd self') = (FM._dbuser self, FM._dbpasswd self)
  /\ FM.URL self' = FM.URL self.
Proof.
  unfold FM.set_db_data. destruct (truthy response); repeat split.
Qed.

(** The default limit of [set_db_data] is 50, whatever it was before. *)
Lemma set_db_data_default_limit (self : FM.t) (name layout : pyval) :
  FM._maxret (FM.set_db_data self name layout (VInt 50) VNone) = VInt 50.
Proof. reflexivity. Qed.

Lemma add_db_param_params (self : FM.t) (field : pystr) (value : pyval)
    (op : option pystr) :
  FM._dbparams (FM.add_db_param self field value op)
  = FM._dbparams self ++ (field, value)
      :: match op with
         | Some o => if bool_decide (o = []) then []
                     else [(field ++ u ".op", VStr o)]
         | None => []
         end.
Proof.
  unfold FM.add_db_param. destruct op as [o|]; [|done].
  destruct (bool_decide (o = [])); simpl; [done|].
  by rewrite <- app_assoc.
Qed.

Lemma add_db_param_dbdata (self : FM.t) field value op :
  FM._dbdata (FM.add_db_param self field value op) = FM._dbdata self
  /\ FM._maxret (FM.add_db_param self field value op) = FM._maxret self.
Proof.
  unfold FM.add_db_param. destruct op as [o|]; [|done].
  by destruct (bool_decide (o = [])).
Qed.

(** ** Transport: the request *)

Section Commit.

Variable request_host : pystr -> res pystr.
Variable urlopen : Request -> reply.

(** [Request] keeps the address and the body it is given, when it
    accepts the address. *)
Lemma Request_init_Ok (url : pystr) (body : pybytes) (request : Request) :
  Request__init__ request_host url body = Ok request <->
  request = mkRequest url body []
  /\ exists full host, Request_full_url url = Ok full
                       /\ request_host full = Ok host.
Proof.
  unfold Request__init__. split.
  - destruct (Request_full_url url) as [full|]; res_red; [|done].
    destruct (request_host full) as [host|] eqn:Hh; res_red; [|done].
    intros <-%Ok_inj. split; [done|]. by exists full, host.
  - intros (-> & full & host & -> & Hh). res_red. by rewrite Hh.
Qed.

(** What [_commit_request] does, by the outcome of the encoding. *)
Lemma commit_request_inv (self self' : FM.t) (action : pystr) (r : res Request) :
  FM._commit_request request_host self action = (self', r) ->
  let params := FM._dbparams self ++ [(u "-max", FM._maxret self)] in
  match urlencode (FM._dbdata self ++ params) with
  | Raise e => self' = FM.with_dbparams self params /\ r = Raise e
  | Ok query =>
      self' = FM.with_dbparams self []
      /\ r = (body ← encode_ascii (query ++ u "&-" ++ action);
              _ ← Request__init__ request_host (FM.URL self) body;
              auth ← utf8_encode (FM._dbuser self ++ u ":" ++ FM._dbpasswd self);
              Ok (mkRequest (FM.URL self) body
                    [(u "User-Agent", u "Fmkr.py");
                     (u "Authorization",
                      u "Basic " ++ removelast (encodebytes auth))]))
  end.
Proof.
  unfold FM._commit_request.
  cbn -[urlencode u encode_ascii utf8_encode encodebytes Request__init__].
  destruct (urlencode _) as [query|e]; intros [= <- <-]; [|done].
  split; [done|].
  destruct (encode_ascii _) as [body|]; res_red; [|done].
  destruct (Request__init__ _ _ _) as [request|] eqn:Hr; res_red; [|done].
  apply Request_init_Ok in Hr as [-> _].
  by destruct (utf8_encode _).
Qed.

Lemma encode_ascii_Ok (s : pystr) (b : pybytes) : encode_ascii s = Ok b -> b = s.
Proof. unfold encode_ascii. by destruct (forallb _ _); intros [=]. Qed.


Lemma commit_request_sent (self self' : FM.t) (action : pystr) (request : Request) :
  FM._commit_request request_host self action = (self', Ok request) ->
  FM._dbparams self' = []
  /\ exists q, urlencode (FM._dbdata self ++ FM._dbparams self
                          ++ [(u "-max", FM._maxret self)]) = Ok q
               /\ data request = q ++ u "&-" ++ action.
Proof.
  intros H. apply commit_request_inv in H. cbn zeta in H.
  destruct (urlencode _) as [q|e]; [|by destruct H].
  destruct H as [-> H]. split; [done|]. exists q. split; [done|].
  destruct (encode_ascii _) as [body|] eqn:Hb; [|done].
  apply encode_ascii_Ok in Hb as ->. res_red.
  destruct (Request__init__ _ _ _); res_red; [|done].
  destruct (utf8_encode _); res_red; [|done].
  by injection H as ->.
Qed.

Lemma commit_unfold (self : FM.t) (action : pystr) :
  FM._commit request_host urlopen self action
  = ((FM._commit_request request_host self action).1,
     request ← (FM._commit_request request_host self action).2;
     FM._commit_response (FM._commit_request request_host self action).1
       request (urlopen request)).
Proof.
  unfold FM._commit. by destruct (FM._commit_request request_host self action).
Qed.

End Commit.

Section Submit.

Variable request_host : pystr -> res pystr.
Variable urlopen : Request -> reply.

Lemma commit_response_cases (self : FM.t) (request : Request) (r : reply) :
  match r with
  | HTTPError m =>
      FM._commit_response self request r
      = Raise (FMError_exn (FMError.mk (-1) m))
  | URLError reason =>
      FM._commit_response self request r
      = Raise (FMError_exn (FMError.mk (-1) (u "URL Error: " ++ reason)))
  | OtherError e => FM._commit_response self request r = Raise e
  | Response _ root =>
      read_errorcode root <> 0%Z ->
      FM._commit_response self request r
      = Raise (FMError_exn (FMError.__init__ (VInt (read_errorcode root))))
  end.
Proof.
  destruct r as [m|reason|e|info root]; try reflexivity.
  intros Hne. unfold FM._commit_response.
  by destruct (Z.eqb_spec (read_errorcode root) 0).
Qed.


(** The one way a submit leaves the list in place: a parameter that
    cannot be encoded (here a lone surrogate) makes [urlencode] raise
    before the list is cleared. *)
Example submit_unencodable_parameter :
  let fmi := FM.set_record_id Sample.client (VStr [55296]) in
  FM.fm_delete request_host urlopen fmi
  = (FM.with_dbparams fmi [(u "-recid", VStr [55296]); (u "-max", VInt 5)],
     Raise UnicodeEncodeError).
Proof. reflexivity. Qed.

Lemma commit_sent (self : FM.t) (action : pystr) (request : Request) :
  (FM._commit_request request_host self action).2 = Ok request ->
  FM._commit request_host urlopen self action
  = (FM.with_dbparams self [],
     FM._commit_response (FM.with_dbparams self []) request (urlopen request)).
Proof.
  intros H. rewrite commit_unfold.
  destruct (FM._commit_request request_host self action) as [self' r] eqn:Hreq.
  cbn [fst snd] in *. subst r.
  pose proof (commit_request_inv _ _ _ _ _ Hreq) as Hinv. cbn zeta in Hinv.
  by destruct (urlencode _), Hinv as [-> Hr].
Qed.

Lemma read_errorcode_int (root e : element) (t : pystr) (n : Z) :
  children root !! 0%nat = Some e -> text e = Some t -> int_str t = Ok n ->
  read_errorcode root = n.
Proof.
  intros He Ht Hn. unfold read_errorcode, getitem. rewrite He. res_red.
  rewrite Ht. cbn [from_option int]. by rewrite Hn.
Qed.

(** C2: when the status element of the response holds a nonzero
    integer, the submit operation raises FMError with that code and the
    message built from the code table, "Unknown error code" standing in
    for a code the table lacks; no result is returned. For 401 the
    message is "FileMaker Error 401: No records match the request". *)
Theorem nonzero_status_raises_FMError (self : FM.t) (action : pystr)
    (request : Request) (info : pystr) (root e : element) (t : pystr) (n : Z) :
  (FM._commit_request request_host self action).2 = Ok request ->
  urlopen request = Response info root ->
  children root !! 0%nat = Some e -> text e = Some t -> int_str t = Ok n ->
  n <> 0%Z ->
  exists err : FMError.t,
    (FM._commit request_host urlopen self action).2 = Raise (FMError_exn err)
    /\ FMError.code err = n
    /\ FMError.message err
       = u "FileMaker Error " ++ str_Z n ++ u ": "
         ++ match FMError.CODES !! n with
            | Some message => message
            | None => u "Unknown error code"
            end
    /\ (n = 401%Z ->
        FMError.message err
        = u "FileMaker Error 401: No records match the request").
Proof.
  intros Hreq Hopen He Ht Hn Hne.
  rewrite (commit_sent _ _ _ Hreq), Hopen. cbn [snd].
  pose proof (commit_response_cases (FM.with_dbparams self []) request
                (Response info root)) as H. cbn beta iota in H.
  rewrite (read_errorcode_int _ _ _ _ He Ht Hn) in H.
  rewrite (H Hne). eexists. split; [reflexivity|].
  split; [done|]. split.
  - cbn [FMError.__init__ FMError.message]. by destruct (FMError.CODES !! n).
  - intros ->. by vm_compute.
Qed.

(** C5: when the status element is absent, has no text, or its text is
    not an integer literal, the status is decoded as -1 instead of the
    conversion error escaping; the submit operation then raises FMError
    with code -1, "Unknown error". *)
Theorem unreadable_status_is_minus_one (root : element) :
  (children root !! 0%nat = None
   \/ exists e, children root !! 0%nat = Some e
        /\ (text e = None
            \/ exists t, text e = Some t /\ forall n, int_str t <> Ok n)) ->
  read_errorcode root = (-1)%Z
  /\ forall (self : FM.t) (action : pystr) (request : Request) (info : pystr),
       (FM._commit_request request_host self action).2 = Ok request ->
       urlopen request = Response info root ->
       (FM._commit request_host urlopen self action).2
       = Raise (FMError_exn
                  (FMError.mk (-1) (u "FileMaker Error -1: Unknown error"))).
Proof.
  intros H.
  assert (read_errorcode root = (-1)%Z) as Hcode.
  { unfold read_errorcode, getitem.
    destruct H as [->|(e & -> & [Ht|(t & Ht & Hn)])]; res_red;
      [done|by rewrite Ht|].
    rewrite Ht. cbn [from_option int].
    destruct (int_str t) as [n|]; [by destruct (Hn n)|done]. }
  split; [done|]. intros self action request info Hreq Hopen.
  rewrite (commit_sent _ _ _ Hreq), Hopen. cbn [snd].
  pose proof (commit_response_cases (FM.with_dbparams self []) request
                (Response info root)) as H'. cbn beta iota in H'.
  rewrite Hcode in H'. by rewrite H'.
Qed.

End Submit.


Lemma nonzero_status_raises_FMError_witness :
  let root := Sample.document (Some (u " 401 ")) [] [] in
  exists err,
    (FM._commit Sample.request_host (Sample.server root) Sample.client
       (u "find")).2
    = Raise (FMError_exn err)
    /\ FMError.code err = 401%Z.
Proof.
  intros root.
  destruct (nonzero_status_raises_FMError Sample.request_host
              (Sample.server root) Sample.client
              (u "find") Sample.request (u "Content-Type: text/xml") root
              (Sample.El "ERRORCODE" [] (Some (u " 401 ")) []) (u " 401 ")
              401%Z eq_refl eq_refl eq_refl eq_refl eq_refl)
    as (err & H1 & H2 & _); [done|].
  by exists err.
Defined.

Lemma unreadable_status_is_minus_one_witness :
  let root := Sample.document (Some (u "4o1")) [] [] in
  read_errorcode root = (-1)%Z
  /\ (FM._commit Sample.request_host (Sample.server root) Sample.client
        (u "find")).2
     = Raise (FMError_exn
                (FMError.mk (-1) (u "FileMaker Error -1: Unknown error"))).
Proof.
  intros root.
  destruct (unreadable_status_is_minus_one Sample.request_host
              (Sample.server root) root) as [Hcode Hsubmit].
  { right. eexists. split; [reflexivity|]. right. exists (u "4o1").
    split; [reflexivity|]. intros n. by vm_compute. }
  split; [exact Hcode|].
  apply (Hsubmit Sample.client (u "find") Sample.request
           (u "Content-Type: text/xml")); reflexivity.
Defined.

(** A status in fullwidth digits is an integer literal: U+FF14 U+FF10
    U+FF11 is decoded as 401 and U+FF10 as 0. A status that is no literal,
    no text or no element is decoded as -1. *)
Example status_samples :
  read_errorcode (Sample.document (Some [65300; 65296; 65297]) [] []) = 401%Z
  /\ read_errorcode (Sample.document (Some [65296]) [] []) = 0%Z
  /\ read_errorcode (Sample.document (Some (u "4o1")) [] []) = (-1)%Z
  /\ read_errorcode (Sample.document None [] []) = (-1)%Z
  /\ read_errorcode (Sample.El "FMPXMLRESULT" [] None []) = (-1)%Z.
Proof. repeat split; by vm_compute. Qed.

(** ** Response parser: the escape transform *)

Lemma escape_char_ends (quote : bool) (c : N) :
  isspace c = false ->
  exists a b, head (escape_char quote c) = Some a
              /\ last (escape_char quote c) = Some b
              /\ isspace a = false /\ isspace b = false.
Proof.
  intros Hc. unfold escape_char.
  destruct (N.eqb_spec c 38) as [->|_]; [by exists 38, 59|].
  destruct (N.eqb_spec c 60) as [->|_]; [by exists 38, 59|].
  destruct (N.eqb_spec c 62) as [->|_]; [by exists 38, 59|].
  destruct (N.eqb_spec c 34) as [->|_];
    [destruct quote; [by exists 38, 59|by exists 34, 34]|].
  destruct (N.eqb_spec c 39) as [->|_]; [destruct quote; by exists 38, 59|].
  destruct (c <? 128); [by exists c, c|].
  exists 38, 59. split; [done|]. split; [|done].
  change (u ";") with [59]. by rewrite app_assoc, last_snoc.
Qed.

Lemma escaped_head (quote : bool) (s : pystr) (x : N) :
  head (escaped quote s) = Some x -> isspace x = false.
Proof.
  unfold escaped. destruct (strip s) as [|c t] eqn:Hs; [done|].
  assert (isspace c = false) as Hc by (apply (strip_head s); by rewrite Hs).
  destruct (escape_char_ends quote c Hc) as (a & b & Ha & _ & Hsa & _).
  cbn [flat_map]. destruct (escape_char quote c); [done|].
  cbn in *. by intros [= <-]; injection Ha as ->.
Qed.

Lemma escaped_last (quote : bool) (s : pystr) (x : N) :
  last (escaped quote s) = Some x -> isspace x = false.
Proof.
  unfold escaped. destruct (last (strip s)) as [c|] eqn:Hl.
  - assert (isspace c = false) as Hc by by apply (strip_last s).
    apply last_Some in Hl as [t ->].
    destruct (escape_char_ends quote c Hc) as (a & b & _ & Hb & _ & Hsb).
    rewrite flat_map_app. cbn [flat_map]. rewrite app_nil_r, last_app, Hb.
    by intros [= <-].
  - apply last_None in Hl as ->. done.
Qed.

(** C10: the escape transform strips the white space around the text
    before it escapes it. The raw text is a run of white space, the part
    kept, and a run of white space, where the part kept neither starts
    nor ends with white space; what is escaped, character by character,
    is the part kept and nothing else. So the escaped value of a
    text-like field has no white space at either end, whatever the raw
    text was. *)
Theorem escape_unicode_strips (ustr : pystr) (quote : bool) :
  (exists l r,
      ustr = l ++ strip ustr ++ r
      /\ Forall (fun c => isspace c = true) l
      /\ Forall (fun c => isspace c = true) r
      /\ forall c, head (strip ustr) = Some c \/ last (strip ustr) = Some c ->
                   isspace c = false)
  /\ (forall l core r,
        ustr = l ++ core ++ r ->
        Forall (fun c => isspace c = true) l ->
        Forall (fun c => isspace c = true) r ->
        (forall c, head core = Some c \/ last core = Some c ->
                   isspace c = false) ->
        strip ustr = core
        /\ escape_unicode ustr quote = Ok (flat_map (escape_char quote) core))
  /\ escape_unicode ustr quote = Ok (flat_map (escape_char quote) (strip ustr))
  /\ escape_unicode ustr quote = escape_unicode (strip ustr) quote
  /\ (forall c r, escape_unicode ustr quote = Ok r ->
        (head r = Some c \/ last r = Some c) -> isspace c = false)
  /\ (forall md, FMField.dtype md = T_str ->
        convert_type true md ustr = Ok (VStr (escaped true ustr))).
Proof.
  split.
  { destruct (strip_split ustr) as (l & r & Hs & Hl & Hr).
    exists l, r. repeat split; try done.
    intros c [H|H]; [by eapply strip_head|by eapply strip_last]. }
  split.
  { intros l core r -> Hl Hr Hcore.
    rewrite escape_unicode_escaped. unfold escaped.
    by rewrite strip_core. }
  split; [apply escape_unicode_escaped|].
  split; [by rewrite !escape_unicode_escaped; unfold escaped; rewrite strip_idemp|].
  split.
  - intros c r. rewrite escape_unicode_escaped. intros [= <-] [H|H].
    + by eapply escaped_head. + by eapply escaped_last.
  - intros md Hmd. unfold convert_type.
    by rewrite Hmd, escape_unicode_escaped.
Qed.

(** Blank, tab and no-break space before, line feed and em space after. *)
Lemma escape_unicode_strips_witness :
  let ustr := [32; 9; 160] ++ u "Doe & Co" ++ [10; 8195] in
  strip ustr = u "Doe & Co"
  /\ escape_unicode ustr true = Ok (u "Doe &amp; Co").
Proof.
  intros ustr.
  destruct (escape_unicode_strips ustr true) as (_ & H & _).
  destruct (H [32; 9; 160] (u "Doe & Co") [10; 8195]) as [Hs He].
  - reflexivity.
  - by repeat constructor.
  - by repeat constructor.
  - intros c [[= <-]|[= <-]]; reflexivity.
  - split; [exact Hs|]. rewrite He. reflexivity.
Defined.

Example escape_unicode_surrounded :
  escape_unicode ([32; 9; 160] ++ u "Doe & Co" ++ [10; 8195]) true
  = Ok (u "Doe &amp; Co").
Proof. reflexivity. Qed.

(** C4 (the program departs from it in the apostrophe): with escaping on,
    a text holding [<], [&], an apostrophe and a non-ASCII character is
    decoded to ASCII text with [&lt;] and [&amp;] and a numeric reference
    for the non-ASCII character, but the apostrophe comes out as [&#x27;],
    the entity html.escape produces, and not as [&#39;]: after html.escape
    no apostrophe is left for the final replacement to rewrite. With
    [quote=False] the same function does give [&#39;]. With escaping
    off the text is passed through. *)
Theorem escape_unicode_apostrophe :
  let md := FMField.mk (u "LAST") 1 true T_str in
  let v := u "<Doe & O'Neil> " ++ [233] in
  convert_type true md v = Ok (VStr (u "&lt;Doe &amp; O&#x27;Neil&gt; &#233;"))
  /\ convert_type true md v <> Ok (VStr (u "&lt;Doe &amp; O&#39;Neil&gt; &#233;"))
  /\ escape_unicode v false = Ok (u "&lt;Doe &amp; O&#39;Neil&gt; &#233;")
  /\ convert_type false md v = Ok (VStr v).
Proof. repeat split. by vm_compute. Qed.

(** ** Response parser: field metadata *)

Lemma getkey_insert_eq {A} (d : gmap pystr A) (k : pystr) (x : A) :
  getkey (<[k := x]> d) k = Ok x.
Proof. unfold getkey. by rewrite lookup_insert_eq. Qed.

Lemma getkey_insert_ne {A} (d : gmap pystr A) (k k' : pystr) (x : A) :
  k <> k' -> getkey (<[k := x]> d) k' = getkey d k'.
Proof. intros H. unfold getkey. by rewrite lookup_insert_ne. Qed.

Lemma DTYPES_str (ty : pystr) (t : pytype) : FMField.DTYPES !! ty = Some t -> t = T_str.
Proof.
  unfold FMField.DTYPES. intros H%elem_of_list_to_map_2.
  repeat (apply elem_of_cons in H as [[= _ ->]|H]; [done|]).
  by apply elem_of_nil in H.
Qed.

(** Every field the parser builds is text-like. *)
Lemma FMField_init_dtype (attributes : gmap pystr pystr) (md : FMField.t) :
  FMField.__init__ attributes = Ok md -> FMField.dtype md = T_str.
Proof.
  unfold FMField.__init__.
  destruct (getkey attributes (u "NAME")); res_red; [|done].
  destruct (getkey attributes (u "MAXREPEAT")); res_red; [|done].
  destruct (int_str _); res_red; [|done].
  destruct (getkey attributes (u "EMPTYOK")); res_red; [|done].
  destruct (getkey attributes (u "TYPE")) as [ty|[]]; res_red;
    try (by intros [= <-]); try done.
  unfold getkey. destruct (FMField.DTYPES !! ty) as [t|] eqn:Ht.
  - apply DTYPES_str in Ht as ->. by intros [= <-].
  - by intros [= <-].
Qed.

(** C9: a TYPE attribute outside the eight recognized tags gives the same
    field as TYPE="TEXT": the text-like kind, and no failure that TEXT
    would not have. *)
Theorem unknown_type_is_text (attributes : gmap pystr pystr) (ty : pystr) :
  ty ∉ [u "NUMBER"; u "TEXT"; u "DATE"; u "TIME"; u "TIMESTAMP";
        u "CONTAINER"; u "CALCULATION"; u "SUMMARY"] ->
  FMField.__init__ (<[u "TYPE" := ty]> attributes)
  = FMField.__init__ (<[u "TYPE" := u "TEXT"]> attributes)
  /\ forall name m n e,
       attributes !! u "NAME" = Some name ->
       attributes !! u "MAXREPEAT" = Some m -> int_str m = Ok n ->
       attributes !! u "EMPTYOK" = Some e ->
       FMField.__init__ (<[u "TYPE" := ty]> attributes)
       = Ok (FMField.mk name n (bool_decide (e = u "YES")) T_str).
Proof.
  intros Hty.
  assert (FMField.DTYPES !! ty = None) as Hnone.
  { apply not_elem_of_list_to_map_1. done. }
  pose (pick := fun t : pystr =>
                  match getkey FMField.DTYPES t with
                  | Raise (KeyError _) => Ok T_str
                  | r => r
                  end).
  assert (forall t, FMField.__init__ (<[u "TYPE" := t]> attributes)
          = (name ← getkey attributes (u "NAME");
             m ← getkey attributes (u "MAXREPEAT");
             maxrepeat ← int_str m;
             e ← getkey attributes (u "EMPTYOK");
             dtype ← pick t;
             Ok (FMField.mk name maxrepeat (bool_decide (e = u "YES")) dtype)))
    as Hinit.
  { intros t. unfold FMField.__init__.
    rewrite (getkey_insert_ne _ _ (u "NAME")) by compute_done.
    rewrite (getkey_insert_ne _ _ (u "MAXREPEAT")) by compute_done.
    rewrite (getkey_insert_ne _ _ (u "EMPTYOK")) by compute_done.
    rewrite getkey_insert_eq. by res_red. }
  assert (pick ty = Ok T_str) as Hpick.
  { unfold pick, getkey. by rewrite Hnone. }
  assert (pick (u "TEXT") = Ok T_str) as Htext by by vm_compute.
  split.
  - by rewrite !Hinit, Hpick, Htext.
  - intros name m n e Hname Hm Hn He. rewrite Hinit, Hpick. unfold getkey.
    rewrite Hname, Hm, He. res_red. by rewrite Hn.
Qed.

Lemma unknown_type_is_text_witness :
  FMField.__init__ (<[u "TYPE" := u "GEOMETRY"]>
                      (attrib (Sample.field "PHONE" "TEXT" "3")))
  = Ok (FMField.mk (u "PHONE") 3 true T_str).
Proof.
  refine (proj2 (unknown_type_is_text _ (u "GEOMETRY") _)
            (u "PHONE") (u "3") 3%Z (u "YES") _ _ _ _);
    [compute_done|by vm_compute..].
Defined.

(** ** Response parser: repeating fields *)

Lemma read_repetitions_texts (conv : pystr -> res pyval) (f : pystr -> pystr)
    (cs : list element) :
  (forall v, conv v = Ok (VStr (f v))) ->
  read_repetitions conv cs = Ok (VStr <$> (f <$> texts_before_gap cs)).
Proof.
  intros Hconv.
  induction cs as [|c cs IH]; [done|]. cbn [read_repetitions texts_before_gap].
  destruct (text c); [|done]. rewrite Hconv, IH. by res_red.
Qed.

Lemma convert_type_str (escrslt : bool) (md : FMField.t) (v : pystr) :
  FMField.dtype md = T_str ->
  convert_type escrslt md v
  = Ok (VStr ((if escrslt then escaped true else id) v)).
Proof.
  intros Hmd. unfold convert_type. rewrite Hmd.
  destruct escrslt; cbn [andb is_str call]; [|done].
  by rewrite escape_unicode_escaped.
Qed.

(** C3: for a field whose repetition count is greater than 1 the decoded
    value is the sequence of the texts of its sub-elements, in order, up to
    the first sub-element without text, each passed through the converter
    of the field (the identity unless escaping is on). With three
    sub-elements of which the first two carry text, the value has exactly
    those two elements. *)
Theorem repeating_field_value (escrslt : bool) (attributes : gmap pystr pystr)
    (md : FMField.t) (cn : element) :
  FMField.__init__ attributes = Ok md ->
  (1 < FMField.maxrepeat md)%Z ->
  read_value escrslt md cn
  = Ok (Seq (VStr <$> ((if escrslt then escaped true else id)
                         <$> texts_before_gap (children cn))))
  /\ (forall c1 c2 c3 a b,
        children cn = [c1; c2; c3] ->
        text c1 = Some a -> text c2 = Some b -> text c3 = None ->
        read_value false md cn = Ok (Seq [VStr a; VStr b])).
Proof.
  intros Hmd%FMField_init_dtype Hrep.
  assert (forall e, read_value e md cn
          = Ok (Seq (VStr <$> ((if e then escaped true else id)
                                 <$> texts_before_gap (children cn))))) as H.
  { intros e. unfold read_value.
    destruct (Z.eqb_spec (FMField.maxrepeat md) 1) as [Heq|_]; [lia|].
    rewrite (read_repetitions_texts _ (if e then escaped true else id));
      [done|]. intros v. by apply convert_type_str. }
  split; [apply H|].
  intros c1 c2 c3 a b Hcn H1 H2 H3. rewrite H, Hcn. cbn [texts_before_gap].
  by rewrite H1, H2, H3.
Qed.

Lemma repeating_field_value_witness :
  let md := FMField.mk (u "PHONE") 3 true T_str in
  let cn := Sample.El "COL" [] None
              [Sample.DATA (Some (u "555-0100"));
               Sample.DATA (Some (u "555-0199")); Sample.DATA None] in
  read_value false md cn
  = Ok (Seq [VStr (u "555-0100"); VStr (u "555-0199")]).
Proof.
  intros md cn.
  refine (proj2 (repeating_field_value false
                   (attrib (Sample.field "PHONE" "TEXT" "3")) md cn _ _)
            _ _ _ _ _ eq_refl eq_refl eq_refl eq_refl);
    by vm_compute.
Defined.

(** The same through a whole submit: a gap ends the sequence, and what
    follows the gap is not collected. *)
Example find_repeating_field :
  let doc := Sample.document (Some (u "0")) (u "Doe")
               [Some (u "555-0100"); Some (u "555-0199"); None;
                Some (u "555-0111")] in
  FMPXMLResult.resultset
    <$> (FM.fm_find Sample.request_host (Sample.server doc) Sample.client).2
  = Ok [ {[ u "RECORDID" := Scalar (VInt 7); u "MODID" := Scalar (VInt 2);
            u "LAST" := Scalar (VStr (u "Doe"));
            u "PHONE" := Seq [VStr (u "555-0100"); VStr (u "555-0199")] ]} ].
Proof. vm_compute. reflexivity. Qed.

(** ** Form data: what is encoded can be read back *)

Ltac ltb_tac :=
  repeat match goal with
    | |- context [?a <? ?b] =>
        first [ rewrite (proj2 (N.ltb_lt a b)) by lia
              | rewrite (proj2 (N.ltb_ge a b)) by lia ]
    | |- context [?a <=? ?b] =>
        first [ rewrite (proj2 (N.leb_le a b)) by lia
              | rewrite (proj2 (N.leb_gt a b)) by lia ]
    | |- context [?a =? ?b] =>
        first [ rewrite (proj2 (N.eqb_eq a b)) by lia
              | rewrite (proj2 (N.eqb_neq a b)) by lia ]
    end.

Lemma utf8_accept_ok (c c' : N) (bs : pybytes) :
  utf8_char c = Some bs -> c' = c -> utf8_accept c' bs = Some c.
Proof. intros H ->. unfold utf8_accept. by rewrite bool_decide_eq_true_2. Qed.

Lemma utf8_decode_char (c : N) (bs rest : pybytes) :
  utf8_char c = Some bs ->
  utf8_decode (bs ++ rest) = (fun s => c :: s) <$> utf8_decode rest.
Proof.
  intros H. pose proof H as H'. unfold utf8_char in H'.
  destruct (N.ltb_spec c 128) as [H1|H1].
  { injection H' as <-. simpl. ltb_tac.
    by destruct (utf8_decode rest). }
  destruct (N.ltb_spec c 2048) as [H2|H2].
  { injection H' as <-. simpl. ltb_tac.
    rewrite (utf8_accept_ok c) by (done || lia).
    by destruct (utf8_decode rest). }
  destruct (N.ltb_spec c 65536) as [H3|H3].
  { destruct (_ && _); [done|].
    injection H' as <-. simpl. ltb_tac.
    rewrite (utf8_accept_ok c) by (done || lia).
    by destruct (utf8_decode rest). }
  destruct (N.ltb_spec c 1114112) as [H4|H4]; [|done].
  injection H' as <-. simpl. ltb_tac.
  rewrite (utf8_accept_ok c) by (done || lia).
  by destruct (utf8_decode rest).
Qed.

Lemma utf8_char_bytes (c : N) (bs : pybytes) :
  utf8_char c = Some bs ->
  (c < 128 /\ bs = [c]) \/ Forall (fun b => 128 <= b < 256) bs.
Proof.
  unfold utf8_char.
  destruct (N.ltb_spec c 128) as [H1|H1]; [intros [= <-]; by left|].
  right. revert H.
  destruct (N.ltb_spec c 2048) as [H2|H2];
    [intros [= <-]; repeat constructor; lia|].
  destruct (N.ltb_spec c 65536) as [H3|H3].
  { destruct (_ && _); [done|]. intros [= <-]; repeat constructor; lia. }
  destruct (N.ltb_spec c 1114112) as [H4|H4]; [|done].
  intros [= <-]; repeat constructor; lia.
Qed.

Lemma utf8_encode_decode (s : pystr) (bs : pybytes) :
  utf8_encode s = Ok bs ->
  utf8_decode bs = Some s /\ Forall (fun b => b < 256) bs
  /\ (32 ∈ bs -> 32 ∈ s).
Proof.
  revert bs. induction s as [|c s IH]; intros bs.
  { intros [= <-]. split; [done|]. split; [constructor|done]. }
  cbn [utf8_encode]. destruct (utf8_char c) as [cs|] eqn:Hc; [|done].
  destruct (utf8_encode s) as [rest|]; res_red; [|done]. intros [= <-].
  destruct (IH rest eq_refl) as (Hd & Hr & Hsp).
  split; [by rewrite (utf8_decode_char c), Hd|].
  destruct (utf8_char_bytes c cs Hc) as [[Hlt ->]|Hcs].
  - split; [constructor; [lia|done]|].
    intros [->|H]%elem_of_cons; [left|right; auto].
  - split.
    + apply Forall_app. split; [|done]. eapply Forall_impl; [done|].
      cbn. lia.
    + intros [H|H]%elem_of_app; [|right; auto].
      apply (proj1 (Forall_forall _ _) Hcs) in H. lia.
Qed.

Lemma hexval_hexdigit (d : N) : d < 16 -> hexval (hexdigit d) = Some d.
Proof.
  intros Hd. unfold hexval, hexdigit.
  destruct (N.ltb_spec d 10); cbn [andb]; ltb_tac; cbn [andb]; ltb_tac;
    cbn [andb]; f_equal; lia.
Qed.

Lemma hexdigit_range (d : N) : 48 <= hexdigit d /\ hexdigit d <> 61.
Proof. unfold hexdigit. destruct (N.ltb_spec d 10); lia. Qed.

Lemma always_safe_range (b : N) :
  always_safe b = true -> 45 <= b < 127 /\ b <> 61 /\ b <> 37.
Proof.
  unfold always_safe. intros H.
  repeat (apply orb_prop in H as [H|H]);
    try apply andb_prop in H as [H1 H2];
    repeat match goal with
      | H : (_ <=? _) = true |- _ => apply N.leb_le in H
      | H : (_ =? _) = true |- _ => apply N.eqb_eq in H
      end; lia.
Qed.

(** The characters of an encoded string: never a separator. *)
Lemma plus_quoter_chars (b x : N) :
  x ∈ plus_quoter b -> x <> 38 /\ x <> 61.
Proof.
  unfold plus_quoter, quoter.
  destruct (N.eqb_spec b 32) as [->|_];
    [by intros ->%list_elem_of_singleton|].
  rewrite orb_false_r. destruct (always_safe b) eqn:Hs.
  - apply always_safe_range in Hs. intros ->%list_elem_of_singleton. lia.
  - pose proof (hexdigit_range (b / 16)). pose proof (hexdigit_range (b mod 16)).
    unfold hexdigit in *.
    intros [->|[->|[->|[]%elem_of_nil]%elem_of_cons]%elem_of_cons]%elem_of_cons;
      [lia| |]; destruct (_ <? 10); lia.
Qed.

Lemma quoter_space (b : N) : replace 32 [43] (quoter ([] ++ [32]) b) = plus_quoter b.
Proof.
  unfold plus_quoter, quoter.
  destruct (N.eqb_spec b 32) as [->|Hne]; [done|].
  rewrite orb_false_r. cbn [app].
  rewrite (bool_decide_eq_false_2 (b ∈ [32]))
    by (by intros ?%list_elem_of_singleton).
  rewrite orb_false_r. apply replace_absent.
  destruct (always_safe b) eqn:Hs.
  - by intros ?%list_elem_of_singleton.
  - pose proof (hexdigit_range (b / 16)). pose proof (hexdigit_range (b mod 16)).
    intros [?|[?|[?|[]%elem_of_nil]%elem_of_cons]%elem_of_cons]%elem_of_cons; lia.
Qed.

Lemma quote_plus_bytes (s q : pystr) :
  quote_plus s [] = Ok q ->
  exists bs, utf8_encode s = Ok bs /\ q = flat_map plus_quoter bs.
Proof.
  unfold quote_plus, quote. destruct (utf8_encode s) as [bs|] eqn:Hbs;
    [|by case_bool_decide].
  destruct (utf8_encode_decode s bs Hbs) as (_ & _ & Hsp).
  res_red. case_bool_decide as Hs; intros [= <-]; exists bs; (split; [done|]).
  - unfold quote_from_bytes. assert (32 ∉ bs) as Hbs32 by auto.
    clear -Hbs32. induction bs as [|b bs IH]; [done|].
    apply not_elem_of_cons in Hbs32 as [Hb Hbs32]. cbn [flat_map].
    rewrite (IH Hbs32). f_equal. unfold plus_quoter.
    by destruct (N.eqb_spec b 32).
  - unfold quote_from_bytes, replace. rewrite flat_map_flat_map.
    apply flat_map_pointwise. intros b. apply quoter_space.
Qed.

Lemma unquote_plus_quoter (b : N) (rest : pystr) :
  b < 256 ->
  unquote_to_bytes (replace 43 [32] (plus_quoter b) ++ rest)
  = (fun bs => b :: bs) <$> unquote_to_bytes rest.
Proof.
  intros Hb. unfold plus_quoter, quoter.
  destruct (N.eqb_spec b 32) as [->|Hne];
    [by simpl; destruct (unquote_to_bytes rest)|].
  rewrite orb_false_r. destruct (always_safe b) eqn:Hs.
  - apply always_safe_range in Hs.
    rewrite replace_absent by (intros ?%list_elem_of_singleton; lia).
    simpl. ltb_tac. by destruct (unquote_to_bytes rest).
  - pose proof (hexdigit_range (b / 16)). pose proof (hexdigit_range (b mod 16)).
    rewrite replace_absent.
    2:{ intros [?|[?|[?|[]%elem_of_nil]%elem_of_cons]%elem_of_cons]%elem_of_cons; lia. }
    simpl. rewrite !hexval_hexdigit by lia. simpl.
    destruct (unquote_to_bytes rest); simpl; [|done]. do 2 f_equal. lia.
Qed.

Lemma unquote_plus_bytes (bs : pybytes) :
  Forall (fun b => b < 256) bs ->
  unquote_to_bytes (replace 43 [32] (flat_map plus_quoter bs)) = Some bs.
Proof.
  induction 1 as [|b bs Hb _ IH]; [done|]. cbn [flat_map].
  rewrite replace_app, unquote_plus_quoter, IH; done.
Qed.

(** One quoted string is read back as it was, and holds no separator. *)
Lemma quote_plus_unquote (s q : pystr) :
  quote_plus s [] = Ok q ->
  unquote_plus q = Some s /\ (38 ∉ q) /\ (61 ∉ q).
Proof.
  intros (bs & Hbs & ->)%quote_plus_bytes.
  destruct (utf8_encode_decode s bs Hbs) as (Hd & Hr & _). split.
  - unfold unquote_plus. by rewrite unquote_plus_bytes.
  - split;
      intros (b & _ & ?%list_elem_of_In%plus_quoter_chars)%list_elem_of_In%in_flat_map;
      lia.
Qed.

Lemma split_nonempty (sep : N) (s : pystr) : split sep s <> [].
Proof.
  induction s as [|c s IH]; [done|]. cbn [split].
  destruct (c =? sep); [done|]. by destruct (split sep s).
Qed.

Lemma split_absent (sep : N) (s : pystr) : sep ∉ s -> split sep s = [s].
Proof.
  induction s as [|c s IH]; [done|]. intros [Hc Hs]%not_elem_of_cons.
  cbn [split]. rewrite (IH Hs). by destruct (N.eqb_spec c sep).
Qed.

Lemma split_app (sep : N) (a b : pystr) :
  split sep (a ++ sep :: b) = split sep a ++ split sep b.
Proof.
  induction a as [|c a IH]; simpl; [by rewrite N.eqb_refl|].
  rewrite IH. destruct (c =? sep); [done|].
  pose proof (split_nonempty sep a). by destruct (split sep a).
Qed.

Lemma cut_first (sep : N) (a b : pystr) :
  sep ∉ a -> cut sep (a ++ sep :: b) = (a, b).
Proof.
  induction a as [|c a IH]; simpl; [by rewrite N.eqb_refl|].
  intros [Hc Ha]%not_elem_of_cons. rewrite (IH Ha).
  by destruct (N.eqb_spec c sep).
Qed.

Lemma parse_pieces_app (a b : list pystr) :
  parse_pieces (a ++ b)
  = (x ← parse_pieces a; y ← parse_pieces b; Some (x ++ y)).
Proof.
  induction a as [|piece a IH].
  { rewrite app_nil_l. cbn. by destruct (parse_pieces b). }
  rewrite <- app_comm_cons.
  destruct piece as [|c piece]; [done|]. cbn [parse_pieces].
  destruct (cut 61 (c :: piece)) as [name value].
  destruct (unquote_plus name); [|done]. destruct (unquote_plus value); [|done].
  cbn. rewrite IH. destruct (parse_pieces a); [|done]. cbn.
  by destruct (parse_pieces b).
Qed.

(** The items of [urlencode]: each is read back as its pair. *)
Lemma urlencode_items_pieces (query : list (pystr * pyval)) (items : list pystr) :
  urlencode_items query = Ok items ->
  parse_pieces items = Some (as_text query) /\ Forall (fun i => 38 ∉ i) items.
Proof.
  revert items. induction query as [|[k v] query IH]; intros items.
  { by intros [= <-]. }
  cbn [urlencode_items].
  destruct (quote_plus k []) as [k'|] eqn:Hk; res_red; [|done].
  destruct (quote_plus (str v) []) as [v'|] eqn:Hv; res_red; [|done].
  destruct (urlencode_items query) as [l|]; res_red; [|done].
  intros <-%Ok_inj. destruct (IH l eq_refl) as [Hl Hall].
  apply quote_plus_unquote in Hk as (Hk & Hk38 & Hk61).
  apply quote_plus_unquote in Hv as (Hv & Hv38 & _).
  change (u "=" ++ v') with (61 :: v'). split.
  - assert (parse_pieces ((k' ++ 61 :: v') :: l)
            = (let '(name, value) := cut 61 (k' ++ 61 :: v') in
               name ← unquote_plus name; value ← unquote_plus value;
               rest ← parse_pieces l; Some ((name, value) :: rest))) as ->.
    { by destruct k'. }
    rewrite cut_first by done. by rewrite Hk, Hv, Hl.
  - constructor; [|done].
    intros [?|[?|?]%elem_of_cons]%elem_of_app; done.
Qed.

Lemma join_split (items : list pystr) :
  Forall (fun i => 38 ∉ i) items ->
  parse_pieces (split 38 (join (u "&") items)) = parse_pieces items.
Proof.
  change (u "&") with [38].
  induction 1 as [|x l Hx Hl IH]; [done|]. cbn [join].
  destruct l as [|y l]; [by rewrite split_absent|].
  change (x ++ [38] ++ join [38] (y :: l)) with (x ++ 38 :: join [38] (y :: l)).
  rewrite split_app, split_absent by done.
  change (x :: y :: l) with ([x] ++ y :: l). by rewrite !parse_pieces_app, IH.
Qed.

(** What [urlencode] produces, [parse_qsl] reads back: the same keys with
    the values as text, in the same order. *)
Lemma parse_qsl_urlencode (query : list (pystr * pyval)) (q : pystr) :
  urlencode query = Ok q -> parse_qsl q = Some (as_text query).
Proof.
  unfold urlencode, parse_qsl.
  destruct (urlencode_items query) as [items|] eqn:Hi; res_red; [|done].
  intros [= <-]. apply urlencode_items_pieces in Hi as [Hi Hall].
  by rewrite join_split.
Qed.

(** The same with the action directive after the pairs. *)
Lemma parse_qsl_body (query : list (pystr * pyval)) (q action : pystr) :
  urlencode query = Ok q ->
  action ∈ [u "find"; u "findall"; u "new"; u "edit"; u "delete"] ->
  parse_qsl (q ++ u "&-" ++ action)
  = Some (as_text query ++ [(u "-" ++ action, [])]).
Proof.
  intros Hq Hact. pose proof (parse_qsl_urlencode _ _ Hq) as Hp.
  unfold parse_qsl in *. change (u "&-" ++ action) with (38 :: u "-" ++ action).
  rewrite split_app, parse_pieces_app, Hp. cbn.
  repeat (apply elem_of_cons in Hact as [->|Hact]; [done|]).
  by apply elem_of_nil in Hact.
Qed.

(** ** Transport: the request body *)

(** The body that is sent, and what a server reads out of it. *)
Lemma commit_request_data (request_host : pystr -> res pystr) (self : FM.t)
    (action : pystr) (request : Request) :
  (FM._commit_request request_host self action).2 = Ok request ->
  exists query,
    urlencode (FM._dbdata self
               ++ (FM._dbparams self ++ [(u "-max", FM._maxret self)]))
    = Ok query
    /\ data request = query ++ u "&-" ++ action
    /\ full_url request = FM.URL self
    /\ (action ∈ [u "find"; u "findall"; u "new"; u "edit"; u "delete"] ->
        parse_qsl (data request)
        = Some (as_text (FM._dbdata self) ++ as_text (FM._dbparams self)
                ++ [(u "-max", str (FM._maxret self)); (u "-" ++ action, [])])).
Proof.
  intros Hreq.
  destruct (FM._commit_request request_host self action) as [self' r] eqn:Heq.
  cbn [snd] in Hreq. subst r.
  destruct (commit_request_sent _ _ _ _ _ Heq) as (_ & q & Hq & Hdata).
  exists q. split; [done|]. split; [done|]. split.
  - apply commit_request_inv in Heq. cbn zeta in Heq. rewrite Hq in Heq.
    destruct Heq as [_ Heq]. destruct (encode_ascii _); res_red; [|done].
    destruct (Request__init__ _ _ _); res_red; [|done].
    destruct (utf8_encode _); res_red; [|done]. by apply Ok_inj in Heq as ->.
  - intros Hact.
    rewrite Hdata, (parse_qsl_body _ _ _ Hq Hact). unfold as_text.
    by rewrite !fmap_app, <- !app_assoc.
Qed.

(** C8: a submit call appends the [-max] pair to the Pending Parameters
    and sends as body the form encoding of the Database Selection pairs
    followed by the Pending Parameters pairs, with [&-] and the action
    after them. Read back, the body gives those pairs in that order and
    the action as the last, valueless, name. *)
Theorem commit_request_body (request_host : pystr -> res pystr)
    (urlopen : Request -> reply) (self : FM.t)
    (action : pystr) (request : Request) :
  (FM._commit_request request_host self action).2 = Ok request ->
  exists query,
    urlencode (FM._dbdata self
               ++ (FM._dbparams self ++ [(u "-max", FM._maxret self)]))
    = Ok query
    /\ data request = query ++ u "&-" ++ action
    /\ full_url request = FM.URL self
    /\ FM._commit request_host urlopen self action
       = (FM.with_dbparams self [],
          FM._commit_response (FM.with_dbparams self []) request
            (urlopen request))
    /\ (action ∈ [u "find"; u "findall"; u "new"; u "edit"; u "delete"] ->
        parse_qsl (data request)
        = Some (as_text (FM._dbdata self) ++ as_text (FM._dbparams self)
                ++ [(u "-max", str (FM._maxret self)); (u "-" ++ action, [])])).
Proof.
  intros Hreq. pose proof (commit_sent request_host urlopen _ _ _ Hreq) as Hc.
  destruct (commit_request_data _ _ _ _ Hreq) as (q & Hq & Hdata & Hurl & Hp).
  exists q. by repeat split.
Qed.

Lemma commit_request_body_witness :
  exists query,
    urlencode (FM._dbdata Sample.client
               ++ (FM._dbparams Sample.client
                   ++ [(u "-max", FM._maxret Sample.client)])) = Ok query
    /\ data Sample.request = query ++ u "&-" ++ u "find".
Proof.
  destruct (commit_request_body Sample.request_host
              (Sample.server (Sample.document None [] []))
              Sample.client (u "find") Sample.request eq_refl)
    as (query & H1 & H2 & _).
  exists query. by split.
Defined.

(** ** Request builder: field criteria *)

(** C7: [add_db_param] with operator [bw] appends exactly the two pairs
    (field, value) and (field.op, bw), next to each other, to the Pending
    Parameters; encoded and read back they are the adjacent pairs
    field=value and field.op=bw, also within the body of the find request.
    Without an operator the single pair (field, value) is appended. *)
Theorem add_db_param_round_trip (request_host : pystr -> res pystr)
    (self : FM.t) (field : pystr) (value : pyval) (q : pystr) :
  urlencode [(field, value); (field ++ u ".op", VStr (u "bw"))] = Ok q ->
  FM._dbparams (FM.add_db_param self field value (Some (u "bw")))
  = FM._dbparams self ++ [(field, value); (field ++ u ".op", VStr (u "bw"))]
  /\ parse_qsl q = Some [(field, str value); (field ++ u ".op", u "bw")]
  /\ FM._dbparams (FM.add_db_param self field value None)
     = FM._dbparams self ++ [(field, value)]
  /\ forall request,
       (FM._commit_request request_host
          (FM.add_db_param self field value (Some (u "bw"))) (u "find")).2
       = Ok request ->
       parse_qsl (data request)
       = Some (as_text (FM._dbdata self) ++ as_text (FM._dbparams self)
               ++ [(field, str value); (field ++ u ".op", u "bw");
                   (u "-max", str (FM._maxret self)); (u "-find", [])]).
Proof.
  intros Hq. split; [by rewrite add_db_param_params|].
  split; [by rewrite (parse_qsl_urlencode _ _ Hq)|].
  split; [by rewrite add_db_param_params|].
  intros request Hreq.
  destruct (commit_request_data _ _ _ _ Hreq) as (query & _ & _ & _ & Hp).
  rewrite Hp by (apply list_elem_of_here).
  destruct (add_db_param_dbdata self field value (Some (u "bw"))) as [-> ->].
  rewrite add_db_param_params. unfold as_text.
  by rewrite !fmap_app, <- !app_assoc.
Qed.

Lemma add_db_param_round_trip_witness :
  parse_qsl (u "LAST=Doe&LAST.op=bw")
  = Some [(u "LAST", u "Doe"); (u "LAST.op", u "bw")].
Proof.
  exact (proj1 (proj2 (add_db_param_round_trip Sample.request_host
                         Sample.client (u "LAST") (VStr (u "Doe"))
                         (u "LAST=Doe&LAST.op=bw") eq_refl))).
Defined.

(** * Further properties *)

(** ** When a request can be encoded *)

Lemma utf8_char_scalar (c : N) : is_Some (utf8_char c) <-> scalar_value c = true.
Proof.
  unfold utf8_char, scalar_value.
  destruct (N.ltb_spec c 128), (N.ltb_spec c 2048), (N.ltb_spec c 65536),
    (N.ltb_spec c 1114112), (N.leb_spec 55296 c), (N.leb_spec c 57343),
    (N.ltb_spec c 55296), (N.ltb_spec 57343 c);
    cbn; split; try done; try lia; by intros [? [=]].
Qed.

Lemma utf8_encode_encodable (s : pystr) :
  (exists bs, utf8_encode s = Ok bs) <-> encodable s = true.
Proof.
  induction s as [|c s IH]; [by split; [|exists []]|].
  cbn [utf8_encode encodable forallb]. rewrite andb_true_iff.
  rewrite <- utf8_char_scalar. fold (encodable s). rewrite <- IH.
  destruct (utf8_char c) as [bs|].
  - destruct (utf8_encode s) as [rest|]; res_red.
    + split; [intros _; split; by eexists|intros _; by eexists].
    + split; [by intros [? [=]]|by intros [_ [? [=]]]].
  - split; [by intros [? [=]]|by intros [[? [=]] _]].
Qed.

Lemma quote_plus_encodable (s : pystr) :
  (exists q, quote_plus s [] = Ok q) <-> encodable s = true.
Proof.
  rewrite <- utf8_encode_encodable. unfold quote_plus, quote.
  destruct (utf8_encode s) as [bs|]; res_red.
  - split; [intros _; by eexists|intros _; case_bool_decide; by eexists].
  - split; [|by intros [? [=]]]. by case_bool_decide; intros [? [=]].
Qed.

Lemma urlencode_items_encodable (query : list (pystr * pyval)) :
  (exists l, urlencode_items query = Ok l)
  <-> forallb encodable_pair query = true.
Proof.
  induction query as [|[k v] query IH]; [by split; [|exists []]|].
  cbn [urlencode_items forallb]. unfold encodable_pair at 1. cbn [fst snd].
  rewrite !andb_true_iff, <- IH, <- !quote_plus_encodable.
  destruct (quote_plus k []) as [k'|]; res_red;
    [|split; [by intros [? [=]]|by intros [[[? [=]] _] _]]].
  destruct (quote_plus (str v) []) as [v'|]; res_red;
    [|split; [by intros [? [=]]|by intros [[_ [? [=]]] _]]].
  destruct (urlencode_items query) as [l|]; res_red.
  - split; [intros _; repeat split; by eexists|intros _; by eexists].
  - split; [by intros [? [=]]|by intros [_ [? [=]]]].
Qed.

Lemma urlencode_encodable (query : list (pystr * pyval)) :
  (exists q, urlencode query = Ok q) <-> forallb encodable_pair query = true.
Proof.
  rewrite <- urlencode_items_encodable. unfold urlencode.
  destruct (urlencode_items query) as [l|]; res_red.
  - split; intros _; by eexists.
  - split; by intros [? [=]].
Qed.

Lemma urlencode_not_encodable (query : list (pystr * pyval)) :
  forallb encodable_pair query = false ->
  urlencode query = Raise UnicodeEncodeError.
Proof.
  intros H. destruct (urlencode query) as [q|e] eqn:Hq.
  - assert (forallb encodable_pair query = true)
      by (apply urlencode_encodable; by eexists).
    congruence.
  - by apply urlencode_Raise in Hq as ->.
Qed.

(** X1: [urlencode] succeeds exactly when every key and every value, as
    text, is free of surrogates and of code points beyond U+10FFFF;
    otherwise it raises UnicodeEncodeError. Integers and None never make
    it fail. *)
Theorem urlencode_succeeds_iff (query : list (pystr * pyval)) :
  ((exists q, urlencode query = Ok q) <-> forallb encodable_pair query = true)
  /\ (urlencode query = Raise UnicodeEncodeError
      <-> forallb encodable_pair query = false)
  /\ (forall k n, encodable_pair (k, VInt n) = encodable k)
  /\ (forall k, encodable_pair (k, VNone) = encodable k).
Proof.
  split; [apply urlencode_encodable|]. split; [split|split].
  - intros H. apply not_true_is_false. intros [q Hq]%urlencode_encodable.
    congruence.
  - apply urlencode_not_encodable.
  - intros k n. unfold encodable_pair. cbn [fst snd str].
    assert (encodable (str_Z n) = true) as ->; [|by rewrite andb_true_r].
    apply forallb_forall. intros x Hx. unfold str_Z in Hx.
    assert (forall m, In x (str_N m) -> scalar_value x = true) as Hd.
    { intros m Hm%list_elem_of_In.
      apply (proj1 (Forall_forall _ _) (str_N_range m)) in Hm.
      unfold scalar_value. apply orb_true_intro. left. apply N.ltb_lt. lia. }
    destruct n as [|p|p]; [by eapply Hd|by eapply Hd|].
    destruct Hx as [<-|Hx]; [done|by eapply Hd].
  - intros k. unfold encodable_pair. cbn [fst snd str].
    by rewrite andb_true_r.
Qed.

Lemma is_ascii_Forall (s : pystr) :
  is_ascii s = true <-> Forall (fun c => c < 128) s.
Proof.
  unfold is_ascii. rewrite forallb_forall, Forall_forall.
  split; intros H x Hx.
  - apply N.ltb_lt, H. by apply list_elem_of_In.
  - apply N.ltb_lt, H. by apply list_elem_of_In.
Qed.

Lemma is_ascii_app (s t : pystr) : is_ascii (s ++ t) = is_ascii s && is_ascii t.
Proof. apply forallb_app. Qed.

Lemma encode_ascii_is_ascii (s : pystr) :
  (exists b, encode_ascii s = Ok b) <-> is_ascii s = true.
Proof.
  unfold encode_ascii, is_ascii. destruct (forallb _ s).
  - split; intros _; by eexists.
  - split; [by intros [? [=]]|done].
Qed.

Lemma plus_quoter_ascii (b : N) :
  b < 256 -> Forall (fun c => c < 128) (plus_quoter b).
Proof.
  intros Hb. unfold plus_quoter, quoter.
  destruct (N.eqb_spec b 32) as [->|_]; [by repeat constructor|].
  rewrite orb_false_r. destruct (always_safe b) eqn:Hs.
  - apply always_safe_range in Hs. rewrite Forall_cons, Forall_nil. lia.
  - unfold hexdigit. rewrite !Forall_cons, Forall_nil.
    destruct (N.ltb_spec (b / 16) 10), (N.ltb_spec (b mod 16) 10); lia.
Qed.

Lemma quote_plus_ascii (s q : pystr) :
  quote_plus s [] = Ok q -> Forall (fun c => c < 128) q.
Proof.
  intros (bs & Hbs & ->)%quote_plus_bytes.
  destruct (utf8_encode_decode s bs Hbs) as (_ & Hr & _). clear Hbs.
  induction Hr as [|b bs Hb _ IH]; [constructor|].
  cbn [flat_map]. apply Forall_app. split; [by apply plus_quoter_ascii|done].
Qed.

Lemma urlencode_ascii (query : list (pystr * pyval)) (q : pystr) :
  urlencode query = Ok q -> is_ascii q = true.
Proof.
  unfold urlencode.
  destruct (urlencode_items query) as [items|] eqn:Hi; res_red; [|done].
  intros <-%Ok_inj. apply is_ascii_Forall.
  assert (Forall (Forall (fun c => c < 128)) items) as Hall.
  { revert items Hi. induction query as [|[k v] query IH]; intros items.
    { intros <-%Ok_inj. constructor. }
    cbn [urlencode_items].
    destruct (quote_plus k []) as [k'|] eqn:Hk; res_red; [|done].
    destruct (quote_plus (str v) []) as [v'|] eqn:Hv; res_red; [|done].
    destruct (urlencode_items query) as [l|]; res_red; [|done].
    intros <-%Ok_inj. constructor; [|by apply IH].
    apply quote_plus_ascii in Hk, Hv.
    apply Forall_app. split; [done|]. apply Forall_app. split; [|done].
    by repeat constructor. }
  clear Hi. induction Hall as [|x l Hx Hl IH]; [constructor|].
  cbn [join]. destruct l as [|y l]; [done|].
  apply Forall_app. split; [done|]. apply Forall_app. split; [|done].
  by repeat constructor.
Qed.

(** X2: [_commit] gets as far as a request to send exactly when the
    selection, the pending parameters and the limit can be encoded, the
    action is ASCII, [Request] accepts the address (it finds a type in it,
    and the library accepts its network location) and the credentials can
    be encoded. The address is looked at before the credentials: when it
    has no type, ValueError is raised whatever the credentials are. *)
Theorem commit_request_built_iff (request_host : pystr -> res pystr)
    (self : FM.t) (action : pystr) :
  ((exists request,
       (FM._commit_request request_host self action).2 = Ok request)
   <-> forallb encodable_pair
         (FM._dbdata self ++ FM._dbparams self
          ++ [(u "-max", FM._maxret self)]) = true
       /\ is_ascii action = true
       /\ (exists full host, Request_full_url (FM.URL self) = Ok full
                             /\ request_host full = Ok host)
       /\ encodable (FM._dbuser self) = true
       /\ encodable (FM._dbpasswd self) = true)
  /\ (forallb encodable_pair
        (FM._dbdata self ++ FM._dbparams self
         ++ [(u "-max", FM._maxret self)]) = true ->
      is_ascii action = true ->
      (forall full, Request_full_url (FM.URL self) <> Ok full) ->
      (FM._commit_request request_host self action).2 = Raise ValueError).
Proof.
  destruct (FM._commit_request request_host self action) as [self' r] eqn:Hreq.
  apply commit_request_inv in Hreq. cbn zeta in Hreq. cbn [snd].
  rewrite <- urlencode_encodable.
  destruct (urlencode _) as [q|e] eqn:Hq.
  2:{ destruct Hreq as [_ ->]. split.
      - split; [by intros [? [=]]|by intros [[? [=]] _]].
      - by intros [? [=]]. }
  destruct Hreq as [_ ->]. apply urlencode_ascii in Hq.
  assert (is_ascii (q ++ u "&-" ++ action) = is_ascii action) as Hdata.
  { by rewrite !is_ascii_app, Hq. }
  assert (encodable (FM._dbuser self) = true /\ encodable (FM._dbpasswd self) = true
          <-> exists auth, utf8_encode (FM._dbuser self ++ u ":" ++ FM._dbpasswd self)
                           = Ok auth) as Hcred.
  { rewrite utf8_encode_encodable. unfold encodable.
    by rewrite !forallb_app, andb_true_iff. }
  rewrite Hcred, <- Hdata, <- encode_ascii_is_ascii.
  destruct (encode_ascii _) as [body|]; res_red.
  2:{ split.
      - split; [by intros [? [=]]|by intros (_ & [? [=]] & _)].
      - by intros _ [? [=]]. }
  destruct (Request__init__ request_host (FM.URL self) body) as [request|e] eqn:Hr;
    res_red.
  - apply Request_init_Ok in Hr as [-> Hacc]. split.
    + destruct (utf8_encode _) as [auth|]; res_red.
      * split; [intros _|intros _; by eexists].
        split; [by eexists|]. split; [by eexists|]. split; [done|by eexists].
      * split; [by intros [? [=]]|by intros (_ & _ & _ & [? [=]])].
    + intros _ _ Hno. by destruct Hacc as (full & _ & ?%Hno & _).
  - split.
    + split; [by intros [? [=]]|]. intros (_ & _ & Hacc & _).
      assert (Request__init__ request_host (FM.URL self) body
              = Ok (mkRequest (FM.URL self) body [])) as Hok
        by by apply Request_init_Ok.
      by rewrite Hok in Hr.
    + intros _ _ Hno. revert Hr. unfold Request__init__.
      destruct (Request_full_url (FM.URL self)) as [full|e'] eqn:Hfull.
      { by destruct (Hno full). }
      res_red. intros [= <-]. f_equal. revert Hfull. unfold Request_full_url.
      destruct (_splittag _) as [? ?]. destruct (_splittype _); [done|].
      by intros [= <-].
Qed.

(** X3: when a key or value of the selection, the pending parameters or
    the limit cannot be encoded, every submit raises UnicodeEncodeError
    without consulting the server, and leaves the pending parameters in
    place with the [-max] pair added at their end. *)
Theorem submit_unencodable (request_host : pystr -> res pystr)
    (urlopen : Request -> reply) (self : FM.t)
    (action : pystr) :
  forallb encodable_pair
    (FM._dbdata self ++ FM._dbparams self ++ [(u "-max", FM._maxret self)])
  = false ->
  FM._commit request_host urlopen self action
  = (FM.with_dbparams self
       (FM._dbparams self ++ [(u "-max", FM._maxret self)]),
     Raise UnicodeEncodeError).
Proof.
  intros H%urlencode_not_encodable. rewrite commit_unfold.
  destruct (FM._commit_request request_host self action) as [self' r] eqn:Hreq.
  apply commit_request_inv in Hreq. cbn zeta in Hreq. rewrite H in Hreq.
  by destruct Hreq as [-> ->].
Qed.

Lemma submit_unencodable_witness :
  let fmi := FM.add_db_param Sample.client (u "LAST") (VStr [68; 56320]) None in
  FM.fm_find Sample.request_host (fun _ => URLError (u "unreachable")) fmi
  = (FM.with_dbparams fmi
       [(u "LAST", VStr [68; 56320]); (u "-max", VInt 5)],
     Raise UnicodeEncodeError).
Proof.
  intros fmi.
  exact (submit_unencodable Sample.request_host
           (fun _ => URLError (u "unreachable")) fmi (u "find") eq_refl).
Defined.

(** ** What a submit keeps and what it drops *)

Lemma commit_state (request_host : pystr -> res pystr)
    (urlopen : Request -> reply) (self : FM.t) (action : pystr) :
  exists params,
    (FM._commit request_host urlopen self action).1
    = FM.with_dbparams self params.
Proof.
  rewrite commit_unfold. cbn [fst].
  destruct (FM._commit_request request_host self action) as [self' r] eqn:Hreq.
  apply commit_request_inv in Hreq. cbn zeta in Hreq.
  destruct (urlencode _); destruct Hreq as [-> _]; by eexists.
Qed.

(** X4: a submit, whatever its outcome, changes nothing of the client but
    the pending parameters: the Database Selection, the limit, the escape
    switch, the credentials and the address stay as they were. *)
Theorem commit_keeps_selection (request_host : pystr -> res pystr)
    (urlopen : Request -> reply) (self : FM.t)
    (action : pystr) :
  let self' := (FM._commit request_host urlopen self action).1 in
  FM._dbdata self' = FM._dbdata self
  /\ FM._maxret self' = FM._maxret self
  /\ FM._escrslt self' = FM._escrslt self
  /\ FM._dbuser self' = FM._dbuser self
  /\ FM._dbpasswd self' = FM._dbpasswd self
  /\ FM._dbname self' = FM._dbname self
  /\ FM.URL self' = FM.URL self.
Proof.
  intros self'. subst self'.
  destruct (commit_state request_host urlopen self action) as [params ->].
  by repeat split.
Qed.

(** X5: after a submit whose parameters could be encoded, the next submit
    starts from an empty list: its body holds the Database Selection and
    the [-max] pair only, whatever the first call had pending and whatever
    the server answered. *)
Theorem second_submit_is_fresh (request_host : pystr -> res pystr)
    (urlopen : Request -> reply) (self : FM.t)
    (action1 action2 : pystr) :
  forallb encodable_pair
    (FM._dbdata self ++ FM._dbparams self ++ [(u "-max", FM._maxret self)])
  = true ->
  exists q,
    urlencode (FM._dbdata self ++ [(u "-max", FM._maxret self)]) = Ok q
    /\ forall request2,
         (FM._commit_request request_host
            (FM._commit request_host urlopen self action1).1 action2).2
         = Ok request2 ->
         data request2 = q ++ u "&-" ++ action2.
Proof.
  intros Henc. pose proof Henc as [q1 Hq1]%urlencode_encodable.
  assert ((FM._commit request_host urlopen self action1).1
          = FM.with_dbparams self []) as ->.
  { rewrite commit_unfold. cbn [fst].
    destruct (FM._commit_request request_host self action1) as [self' r] eqn:Hreq.
    apply commit_request_inv in Hreq. cbn zeta in Hreq. rewrite Hq1 in Hreq.
    by destruct Hreq as [-> _]. }
  rewrite !forallb_app, !andb_true_iff in Henc. destruct Henc as (Hd & _ & Hm).
  destruct (proj2 (urlencode_encodable
                     (FM._dbdata self ++ [(u "-max", FM._maxret self)])))
    as [q Hq]; [by rewrite forallb_app, Hd, Hm|].
  exists q. split; [done|]. intros request2 Hreq.
  destruct (FM._commit_request request_host (FM.with_dbparams self []) action2)
    as [self' r] eqn:Heq.
  cbn [snd] in Hreq. subst r.
  destruct (commit_request_sent _ _ _ _ _ Heq) as (_ & q' & Hq' & ->).
  change (urlencode (FM._dbdata self ++ [(u "-max", FM._maxret self)])
          = Ok q') in Hq'.
  rewrite Hq in Hq'. by apply Ok_inj in Hq' as ->.
Qed.

Lemma second_submit_is_fresh_witness :
  let fmi := FM.add_db_param Sample.client (u "LAST") (VStr (u "Doe"))
               (Some (u "bw")) in
  exists q,
    urlencode (FM._dbdata fmi ++ [(u "-max", FM._maxret fmi)]) = Ok q
    /\ data (mkRequest (FM.URL Sample.client)
               (u "-db=Test&-lay=data+entry&-max=5&-findall")
               (headers Sample.request))
       = q ++ u "&-" ++ u "findall".
Proof.
  intros fmi.
  destruct (second_submit_is_fresh Sample.request_host
              (fun _ => URLError (u "timed out")) fmi
              (u "find") (u "findall") eq_refl) as (q & Hq & H).
  exists q. split; [done|]. by apply H.
Defined.

(** X6: a transport failure is raised as FMError with code -1: for an
    HTTP error the message is the text of the error, for a URL error it is
    "URL Error: " and the reason. Any other exception of the transport
    or of the XML parser comes through unchanged. In each case the pending
    parameters have been cleared. *)
Theorem transport_failure_raises_FMError (request_host : pystr -> res pystr)
    (urlopen : Request -> reply)
    (self : FM.t) (action : pystr) (request : Request) :
  (FM._commit_request request_host self action).2 = Ok request ->
  (forall m, urlopen request = HTTPError m ->
     FM._commit request_host urlopen self action
     = (FM.with_dbparams self [], Raise (FMError_exn (FMError.mk (-1) m))))
  /\ (forall reason, urlopen request = URLError reason ->
        FM._commit request_host urlopen self action
        = (FM.with_dbparams self [],
           Raise (FMError_exn (FMError.mk (-1) (u "URL Error: " ++ reason)))))
  /\ (forall e, urlopen request = OtherError e ->
        FM._commit request_host urlopen self action
        = (FM.with_dbparams self [], Raise e)).
Proof.
  intros Hreq. rewrite (commit_sent request_host urlopen _ _ _ Hreq).
  repeat split; by intros ? ->.
Qed.

Lemma transport_failure_raises_FMError_witness :
  FM.fm_delete Sample.request_host
    (fun _ => HTTPError (u "HTTP Error 401: Unauthorized")) Sample.client
  = (Sample.client,
     Raise (FMError_exn (FMError.mk (-1) (u "HTTP Error 401: Unauthorized")))).
Proof.
  refine (proj1 (transport_failure_raises_FMError Sample.request_host
                   (fun _ => HTTPError (u "HTTP Error 401: Unauthorized"))
                   Sample.client (u "delete")
                   (mkRequest (FM.URL Sample.client)
                      (u "-db=Test&-lay=data+entry&-max=5&-delete")
                      (headers Sample.request)) eq_refl) _ eq_refl).
Defined.

(** ** Request builder: the other setters *)

(** X7: [add_db_params] appends the given pairs, in their order and
    without operator pairs, after the parameters already pending; it
    touches nothing else. *)
Theorem add_db_params_appends (self : FM.t) (fieldvalues : list (pystr * pyval)) :
  FM._dbparams (FM.add_db_params self fieldvalues)
  = FM._dbparams self ++ fieldvalues
  /\ FM._dbdata (FM.add_db_params self fieldvalues) = FM._dbdata self
  /\ FM._maxret (FM.add_db_params self fieldvalues) = FM._maxret self.
Proof.
  unfold FM.add_db_params. revert self.
  induction fieldvalues as [|[field value] l IH]; intros self.
  { by rewrite app_nil_r. }
  cbn [foldl fst snd]. destruct (IH (FM.add_db_param self field value None))
    as (-> & -> & ->).
  rewrite add_db_param_params.
  destruct (add_db_param_dbdata self field value None) as [-> ->].
  by rewrite <- app_assoc.
Qed.

Lemma uint_digits_inj (d d' : Decimal.uint) :
  uint_digits d = uint_digits d' -> d = d'.
Proof.
  revert d'. induction d; intros []; cbn [uint_digits]; intros [=];
    f_equal; auto.
Qed.

Lemma str_N_inj (n m : N) : str_N n = str_N m -> n = m.
Proof. intros H%uint_digits_inj. by apply DecimalN.Unsigned.to_uint_inj. Qed.

Lemma str_N_head (n : N) (c : N) (s : pystr) : str_N n = c :: s -> c <> 45.
Proof.
  intros H. pose proof (str_N_range n) as Hr. rewrite H in Hr.
  apply Forall_cons in Hr as [Hc _]. lia.
Qed.

Lemma str_Z_inj (n m : Z) : str_Z n = str_Z m -> n = m.
Proof.
  unfold str_Z.
  destruct n as [|p|p], m as [|q|q]; intros H;
    try (apply str_N_inj in H; cbn in H; congruence);
    try (by symmetry in H; apply str_N_head in H);
    try (by apply str_N_head in H).
  apply (f_equal (drop 1)) in H. cbn [drop] in H.
  apply str_N_inj in H. congruence.
Qed.

(** X8: [add_sort_param] appends the field under [-sortfield.N] and
    the order under [-sortorder.N], N being the priority in decimal.
    Different priorities always give different keys, so that sort criteria
    of different priorities do not collide in the request. *)
Theorem add_sort_param_keys (self : FM.t) (field order : pyval)
    (priority priority' : Z) :
  FM._dbparams (FM.add_sort_param self field order priority)
  = FM._dbparams self
    ++ [(u "-sortfield." ++ str_Z priority, field);
        (u "-sortorder." ++ str_Z priority, order)]
  /\ (u "-sortfield." ++ str_Z priority = u "-sortfield." ++ str_Z priority'
      <-> priority = priority')
  /\ (u "-sortorder." ++ str_Z priority = u "-sortorder." ++ str_Z priority'
      <-> priority = priority')
  /\ u "-sortfield." ++ str_Z priority <> u "-sortorder." ++ str_Z priority'.
Proof.
  split; [unfold FM.add_sort_param; cbn; by rewrite <- app_assoc|].
  split; [|split].
  - split; [|by intros ->]. by intros H%app_inv_head%str_Z_inj.
  - split; [|by intros ->]. by intros H%app_inv_head%str_Z_inj.
  - change (u "-sortfield.") with (u "-sort" ++ u "field.").
    change (u "-sortorder.") with (u "-sort" ++ u "order.").
    rewrite <- !app_assoc. intros H%app_inv_head. by vm_compute in H.
Qed.

(** X9: [set_script] appends the script name under [-script], or under
    [-script.prefind] or [-script.presort] when the option is exactly that
    word; any other option is ignored and gives [-script]. *)
Theorem set_script_key (self : FM.t) (name option : pyval) :
  exists key,
    FM._dbparams (FM.set_script self name option)
    = FM._dbparams self ++ [(key, name)]
    /\ (option = VStr (u "prefind") -> key = u "-script.prefind")
    /\ (option = VStr (u "presort") -> key = u "-script.presort")
    /\ (option <> VStr (u "prefind") -> option <> VStr (u "presort") ->
        key = u "-script").
Proof.
  unfold FM.set_script. eexists. split; [reflexivity|].
  destruct option as [|n|o]; try by (repeat split; try done; intros; done).
  destruct (decide (o = u "prefind")) as [->|H1];
    [by repeat split; try done; intros; congruence|].
  destruct (decide (o = u "presort")) as [->|H2];
    [by repeat split; try done; intros; congruence|].
  rewrite !bool_decide_eq_false_2 by done. cbn [orb].
  repeat split; intros; congruence.
Qed.

(** ** The escape transform: what comes out *)

Lemma escape_char_chars (quote : bool) (c x : N) :
  x ∈ escape_char quote c ->
  x < 128 /\ x <> 60 /\ x <> 62 /\ x <> 39 /\ (quote = true -> x <> 34).
Proof.
  assert (forall l : pystr,
            forallb (fun y => (y <? 128) && negb (y =? 60) && negb (y =? 62)
                              && negb (y =? 39) && negb (y =? 34)) l = true ->
            x ∈ l ->
            x < 128 /\ x <> 60 /\ x <> 62 /\ x <> 39 /\ (quote = true -> x <> 34))
    as Hlit.
  { intros l Hl Hx%list_elem_of_In. rewrite forallb_forall in Hl.
    apply Hl in Hx. rewrite !andb_true_iff, !negb_true_iff in Hx.
    destruct Hx as ((((H1 & H2) & H3) & H4) & H5).
    apply N.ltb_lt in H1. apply N.eqb_neq in H2, H3, H4, H5. done. }
  unfold escape_char.
  destruct (N.eqb_spec c 38) as [->|H38]; [by apply Hlit|].
  destruct (N.eqb_spec c 60) as [->|H60]; [by apply Hlit|].
  destruct (N.eqb_spec c 62) as [->|H62]; [by apply Hlit|].
  destruct (N.eqb_spec c 34) as [->|H34].
  { destruct quote; [by apply Hlit|].
    intros ->%list_elem_of_singleton. by repeat split. }
  destruct (N.eqb_spec c 39) as [->|H39]; [destruct quote; by apply Hlit|].
  destruct (N.ltb_spec c 128) as [Hc|Hc].
  { intros ->%list_elem_of_singleton. by repeat split. }
  intros [Hx|[Hx|Hx]%elem_of_app]%elem_of_app;
    [by apply (Hlit (u "&#"))| |by apply (Hlit (u ";"))].
  apply (proj1 (Forall_forall _ _) (str_N_range c)) in Hx.
  repeat split; try lia.
Qed.

(** X10: [escape_unicode] never fails, and its result is ASCII text
    without [<], [>] and apostrophe, and with [quote] on also without the
    double quote: text that can be put into XHTML content, and with
    [quote] into an attribute value. *)
Theorem escape_unicode_output (ustr : pystr) (quote : bool) :
  exists r,
    escape_unicode ustr quote = Ok r
    /\ Forall (fun c => c < 128 /\ c <> 60 /\ c <> 62 /\ c <> 39
                        /\ (quote = true -> c <> 34)) r.
Proof.
  exists (escaped quote ustr). split; [apply escape_unicode_escaped|].
  apply Forall_forall. intros x (c & _ & Hx)%list_elem_of_In%in_flat_map.
  apply (escape_char_chars quote c). by apply list_elem_of_In.
Qed.

Lemma strip_Forall (P : N -> Prop) (s : pystr) : Forall P s -> Forall P (strip s).
Proof.
  intros H. unfold strip.
  destruct (lstrip_suffix s) as [w Hw].
  destruct (rstrip_prefix (lstrip s)) as [w' Hw'].
  rewrite Hw in H. apply Forall_app in H as [_ H].
  rewrite Hw' in H. by apply Forall_app in H as [H _].
Qed.

Lemma escape_char_plain (quote : bool) (c : N) :
  plain c = true -> escape_char quote c = [c].
Proof.
  unfold plain, escape_char.
  rewrite andb_true_iff, negb_true_iff, !orb_false_iff.
  by intros (-> & (((-> & ->) & ->) & ->) & ->).
Qed.

(** X11: on ASCII text without [&], [<], [>] and quotes the escape
    transform does nothing but strip the surrounding white space. *)
Theorem escape_unicode_plain (ustr : pystr) (quote : bool) :
  forallb plain ustr = true ->
  escape_unicode ustr quote = Ok (strip ustr).
Proof.
  intros H. rewrite escape_unicode_escaped. f_equal. unfold escaped.
  assert (Forall (fun c => plain c = true) (strip ustr)) as Hs.
  { apply strip_Forall, Forall_forall. intros x Hx%list_elem_of_In.
    by apply (proj1 (forallb_forall _ _) H). }
  induction Hs as [|c t Hc _ IH]; [done|].
  cbn [flat_map]. by rewrite (escape_char_plain quote c Hc), IH.
Qed.

Lemma escape_unicode_plain_witness :
  escape_unicode (u "  Doe, John  ") true = Ok (u "Doe, John").
Proof. exact (escape_unicode_plain (u "  Doe, John  ") true eq_refl). Defined.

(** ** Response parser: metadata, rows and the result *)

Lemma getkey_Raise {A} (d : gmap pystr A) (k : pystr) (e : exn) :
  getkey d k = Raise e -> e = KeyError k /\ d !! k = None.
Proof. unfold getkey. destruct (d !! k); [done|]. by intros [= <-]. Qed.

Lemma int_str_Raise (s : pystr) (e : exn) : int_str s = Raise e -> e = ValueError.
Proof.
  unfold int_str.
  destruct (match reverse (int_lskip (reverse (int_lskip s))) with
            | 45 :: s' => (true, s')
            | 43 :: s' => (false, s')
            | _ => (false, reverse (int_lskip (reverse (int_lskip s))))
            end) as [neg body].
  destruct (int_unsigned body); [done|]. by intros [= <-].
Qed.

(** The type attribute never decides between success and failure. *)
Lemma FMField_dtype_pick (attributes : gmap pystr pystr) :
  match ty ← getkey attributes (u "TYPE"); getkey FMField.DTYPES ty with
  | Raise (KeyError _) => Ok T_str
  | r => r
  end = Ok T_str.
Proof.
  destruct (getkey attributes (u "TYPE")) as [ty|e] eqn:Hty; res_red.
  - unfold getkey. destruct (FMField.DTYPES !! ty) as [t|] eqn:Ht; [|done].
    by apply DTYPES_str in Ht as ->.
  - by apply getkey_Raise in Hty as [-> _].
Qed.

Lemma FMField_init_cases (attributes : gmap pystr pystr) :
  FMField.__init__ attributes
  = (name ← getkey attributes (u "NAME");
     m ← getkey attributes (u "MAXREPEAT");
     maxrepeat ← int_str m;
     e ← getkey attributes (u "EMPTYOK");
     Ok (FMField.mk name maxrepeat (bool_decide (e = u "YES")) T_str)).
Proof.
  unfold FMField.__init__. rewrite FMField_dtype_pick.
  destruct (getkey attributes (u "NAME")); res_red; [|done].
  destruct (getkey attributes (u "MAXREPEAT")); res_red; [|done].
  destruct (int_str _); res_red; [|done].
  by destruct (getkey attributes (u "EMPTYOK")).
Qed.

Lemma FMField_init_Raise (attributes : gmap pystr pystr) (e : exn) :
  FMField.__init__ attributes = Raise e ->
  e = ValueError
  \/ exists k, e = KeyError k /\ attributes !! k = None
               /\ k ∈ [u "NAME"; u "MAXREPEAT"; u "EMPTYOK"].
Proof.
  rewrite FMField_init_cases.
  destruct (getkey attributes (u "NAME")) eqn:H1; res_red.
  2:{ intros [= <-]. apply getkey_Raise in H1 as [-> H1]. right.
      eexists. split; [done|]. split; [done|]. set_solver. }
  destruct (getkey attributes (u "MAXREPEAT")) eqn:H2; res_red.
  2:{ intros [= <-]. apply getkey_Raise in H2 as [-> H2]. right.
      eexists. split; [done|]. split; [done|]. set_solver. }
  destruct (int_str _) eqn:H3; res_red.
  2:{ intros [= <-]. apply int_str_Raise in H3 as ->. by left. }
  destruct (getkey attributes (u "EMPTYOK")) eqn:H4; res_red; [done|].
  intros [= <-]. apply getkey_Raise in H4 as [-> H4]. right.
  eexists. split; [done|]. split; [done|]. set_solver.
Qed.

(** X12: a field metadata entry is built exactly when NAME, MAXREPEAT and
    EMPTYOK are present and MAXREPEAT is an integer literal as [int]
    reads it; the TYPE attribute may be anything or missing, and the kind
    is always text.
    EMPTYOK counts as true for the exact text YES only. A failure is the
    KeyError of the first missing attribute or the ValueError of
    MAXREPEAT. *)
Theorem FMField_init_succeeds_iff (attributes : gmap pystr pystr) (md : FMField.t) :
  (FMField.__init__ attributes = Ok md
   <-> exists name m n e,
         attributes !! u "NAME" = Some name
         /\ attributes !! u "MAXREPEAT" = Some m /\ int_str m = Ok n
         /\ attributes !! u "EMPTYOK" = Some e
         /\ md = FMField.mk name n (bool_decide (e = u "YES")) T_str)
  /\ (forall e, FMField.__init__ attributes = Raise e ->
        e = ValueError
        \/ exists k, e = KeyError k /\ attributes !! k = None
                     /\ k ∈ [u "NAME"; u "MAXREPEAT"; u "EMPTYOK"]).
Proof.
  split; [|apply FMField_init_Raise].
  rewrite FMField_init_cases. unfold getkey. split.
  - destruct (attributes !! u "NAME") as [name|]; res_red; [|done].
    destruct (attributes !! u "MAXREPEAT") as [m|]; res_red; [|done].
    destruct (int_str m) as [n|] eqn:Hn; res_red; [|done].
    destruct (attributes !! u "EMPTYOK") as [e|]; res_red; [|done].
    intros <-%Ok_inj. by exists name, m, n, e.
  - intros (name & m & n & e & -> & -> & Hn & -> & ->). res_red.
    by rewrite Hn.
Qed.

(** A repetition count in fullwidth digits (U+FF13) is read as 3. *)
Example FMField_fullwidth_maxrepeat :
  FMField.__init__
    (list_to_map [(u "NAME", u "PHONE"); (u "MAXREPEAT", [65299]);
                  (u "EMPTYOK", u "NO")])
  = Ok (FMField.mk (u "PHONE") 3 false T_str).
Proof. by vm_compute. Qed.

(** X13: for a field with repetition count 1 only the first sub-element
    counts: its text, escaped when escaping is on, or None when it has no
    text; a column without any sub-element raises IndexError. *)
Theorem scalar_field_value (escrslt : bool) (attributes : gmap pystr pystr)
    (md : FMField.t) (cn : element) :
  FMField.__init__ attributes = Ok md ->
  FMField.maxrepeat md = 1%Z ->
  read_value escrslt md cn
  = match children cn with
    | [] => Raise IndexError
    | c :: _ =>
        match text c with
        | None => Ok (Scalar VNone)
        | Some v => Ok (Scalar (VStr (if escrslt then escaped true v else v)))
        end
    end.
Proof.
  intros Hmd%FMField_init_dtype Hrep. unfold read_value, getitem.
  rewrite Hrep. cbn [Z.eqb Pos.eqb]. destruct (children cn) as [|c cs]; [done|].
  cbn [lookup list_lookup]. res_red. destruct (text c) as [v|]; [|done].
  rewrite convert_type_str by done. res_red. by destruct escrslt.
Qed.

Lemma scalar_field_value_witness :
  let md := FMField.mk (u "LAST") 1 true T_str in
  read_value true md (Sample.El "COL" [] None [Sample.DATA (Some (u " O'Neil "))])
  = Ok (Scalar (VStr (u "O&#x27;Neil")))
  /\ read_value true md (Sample.El "COL" [] None []) = Raise IndexError.
Proof.
  intros md. split.
  - exact (scalar_field_value true (attrib (Sample.field "LAST" "TEXT" "1")) md
             _ eq_refl eq_refl).
  - exact (scalar_field_value true (attrib (Sample.field "LAST" "TEXT" "1")) md
             (Sample.El "COL" [] None []) eq_refl eq_refl).
Defined.

Lemma read_fields_record (escrslt : bool) (record record' : gmap pystr value)
    (pairs : list (FMField.t * element)) :
  read_fields escrslt record pairs = Ok record' ->
  dom record' = dom record ∪ list_to_set ((fun p => FMField.name p.1) <$> pairs)
  /\ forall k, k ∉ (fun p => FMField.name p.1) <$> pairs ->
               record' !! k = record !! k.
Proof.
  revert record. induction pairs as [|[md cn] pairs IH]; intros record.
  { intros <-%Ok_inj. split; [|done]. cbn. by rewrite (right_id_L ∅ (∪)). }
  cbn [read_fields]. destruct (read_value escrslt md cn) as [v|]; res_red; [|done].
  intros [Hdom Hlook]%IH. split.
  - rewrite Hdom, dom_insert_L. cbn [fmap list_fmap list_to_set fst].
    rewrite (comm_L (∪) {[FMField.name md]} (dom record)).
    by rewrite (assoc_L (∪)).
  - intros k [Hk Hks]%not_elem_of_cons. cbn [fst] in Hk.
    rewrite (Hlook k Hks). by rewrite lookup_insert_ne.
Qed.

Lemma zip_names (metadata : list FMField.t) (cs : list element) :
  (fun p => FMField.name p.1) <$> zip metadata cs
  = FMField.name <$> take (length cs) metadata.
Proof.
  revert cs. induction metadata as [|md l IH]; intros [|c cs]; try done.
  cbn. by rewrite IH.
Qed.

(** X14: a decoded record has the keys MODID and RECORDID and the names of
    the fields that have a column in the row, metadata entries beyond the
    columns of the row being left out. The two identifiers are the
    integers of the row attributes, unless a field of that very name
    overwrites them. *)
Theorem read_row_keys (escrslt : bool) (metadata : list FMField.t)
    (row : element) (record : gmap pystr value) :
  read_row escrslt metadata row = Ok record ->
  let names := FMField.name <$> take (length (children row)) metadata in
  exists m modid r recid,
    attrib row !! u "MODID" = Some m /\ int_str m = Ok modid
    /\ attrib row !! u "RECORDID" = Some r /\ int_str r = Ok recid
    /\ dom record = {[u "MODID"; u "RECORDID"]} ∪ list_to_set names
    /\ (u "MODID" ∉ names -> record !! u "MODID" = Some (Scalar (VInt modid)))
    /\ (u "RECORDID" ∉ names ->
        record !! u "RECORDID" = Some (Scalar (VInt recid))).
Proof.
  intros H names. unfold read_row, getkey in H.
  destruct (attrib row !! u "MODID") as [m|]; res_red; [|done].
  destruct (int_str m) as [modid|] eqn:Hm; res_red; [|done].
  destruct (attrib row !! u "RECORDID") as [r|]; res_red; [|done].
  destruct (int_str r) as [recid|] eqn:Hr; res_red; [|done].
  apply read_fields_record in H as [Hdom Hlook]. rewrite zip_names in Hdom, Hlook.
  exists m, modid, r, recid. repeat split; try done.
  - intros Hk. rewrite (Hlook _ Hk).
    rewrite lookup_insert_ne by compute_done. by rewrite lookup_insert_eq.
  - intros Hk. rewrite (Hlook _ Hk). by rewrite lookup_insert_eq.
Qed.

Lemma read_row_keys_witness :
  let metadata := [FMField.mk (u "LAST") 1 true T_str;
                   FMField.mk (u "PHONE") 3 true T_str] in
  let row := Sample.El "ROW" [("MODID", "2"); ("RECORDID", "7")] None
               [Sample.El "COL" [] None [Sample.DATA (Some (u "Doe"))]] in
  let record : gmap pystr value :=
    {[ u "RECORDID" := Scalar (VInt 7); u "MODID" := Scalar (VInt 2);
       u "LAST" := Scalar (VStr (u "Doe")) ]} in
  read_row false metadata row = Ok record
  /\ dom record = {[u "MODID"; u "RECORDID"]} ∪ list_to_set [u "LAST"].
Proof.
  intros metadata row record.
  assert (read_row false metadata row = Ok record) as H
    by (vm_compute; reflexivity).
  split; [exact H|].
  destruct (read_row_keys false metadata row record H)
    as (m & modid & r & recid & _ & _ & _ & _ & Hdom & _).
  exact Hdom.
Defined.

Lemma mapM_res_Ok {A B} (f : A -> res B) (l : list A) (k : list B) :
  mapM f l = Ok k -> Forall2 (fun x y => f x = Ok y) l k.
Proof.
  revert k. induction l as [|x l IH]; intros k.
  { intros <-%Ok_inj. constructor. }
  cbn [mapM]. destruct (f x) as [y|] eqn:Hy; res_red; [|done].
  destruct (mapM f l) as [k'|]; res_red; [|done].
  intros <-%Ok_inj. constructor; [done|by apply IH].
Qed.

Lemma mapM_res_Raise {A B} (f : A -> res B) (l : list A) (e : exn) :
  mapM f l = Raise e -> exists x, x ∈ l /\ f x = Raise e.
Proof.
  induction l as [|x l IH]; [done|].
  cbn [mapM]. destruct (f x) as [y|e'] eqn:Hy; res_red.
  - destruct (mapM f l) as [k'|e']; res_red; [done|]. intros [= <-].
    destruct (IH eq_refl) as (x' & Hx' & Hf). exists x'. split; [by right|done].
  - intros [= <-]. exists x. split; [by left|done].
Qed.

(** X15: a result that is returned has status 0, the URL of the request
    followed by [?] and the body, the header text of the reply, the
    attributes of the second and third element as product and database
    information, one metadata entry (always text-like) for each child of
    the fourth element and one record for each child of the fifth. *)
Theorem commit_result_shape (request_host : pystr -> res pystr)
    (urlopen : Request -> reply) (self : FM.t)
    (action : pystr) (results : FMPXMLResult.t) :
  (FM._commit request_host urlopen self action).2 = Ok results ->
  exists request info root e1 e2 e3 e4,
    (FM._commit_request request_host self action).2 = Ok request
    /\ urlopen request = Response info root
    /\ read_errorcode root = 0%Z
    /\ children root !! 1%nat = Some e1 /\ children root !! 2%nat = Some e2
    /\ children root !! 3%nat = Some e3 /\ children root !! 4%nat = Some e4
    /\ FMPXMLResult.errorcode results = 0%Z
    /\ FMPXMLResult.url results = full_url request ++ u "?" ++ data request
    /\ FMPXMLResult.httpinfo results = info
    /\ FMPXMLResult.product results = attrib e1
    /\ FMPXMLResult.database results = attrib e2
    /\ length (FMPXMLResult.metadata results) = length (children e3)
    /\ length (FMPXMLResult.resultset results) = length (children e4)
    /\ Forall (fun md => FMField.dtype md = T_str) (FMPXMLResult.metadata results).
Proof.
  rewrite commit_unfold. cbn [snd].
  destruct (FM._commit_request request_host self action)
    as [self' [request|]]; res_red; [|done]. cbn [fst snd].
  unfold FM._commit_response.
  destruct (urlopen request) as [| | |info root] eqn:Hopen; try done.
  destruct (Z.eqb_spec (read_errorcode root) 0) as [Hcode|]; [|done].
  cbn [negb]. unfold getitem.
  destruct (children root !! 1%nat) as [e1|] eqn:H1; res_red; [|done].
  destruct (children root !! 2%nat) as [e2|] eqn:H2; res_red; [|done].
  destruct (children root !! 3%nat) as [e3|] eqn:H3; res_red; [|done].
  destruct (mapM _ (children e3)) as [metadata|] eqn:Hmd; res_red; [|done].
  destruct (children root !! 4%nat) as [e4|] eqn:H4; res_red; [|done].
  destruct (mapM _ (children e4)) as [resultset|] eqn:Hrs; res_red; [|done].
  intros <-%Ok_inj. exists request, info, root, e1, e2, e3, e4.
  apply mapM_res_Ok in Hmd, Hrs. rewrite Hcode.
  cbn [FMPXMLResult.errorcode FMPXMLResult.url FMPXMLResult.httpinfo
       FMPXMLResult.product FMPXMLResult.database FMPXMLResult.metadata
       FMPXMLResult.resultset].
  rewrite !(right_id_L ∅ (∪)).
  repeat split; try done; try (symmetry; by eapply Forall2_length).
  clear -Hmd. induction Hmd as [|x y l k Hxy _ IH]; constructor; [|done].
  by eapply FMField_init_dtype.
Qed.

Lemma commit_result_shape_witness :
  let doc := Sample.document (Some (u "0")) (u "Doe") [] in
  exists results,
    (FM.fm_find Sample.request_host (Sample.server doc) Sample.client).2
    = Ok results
    /\ FMPXMLResult.errorcode results = 0%Z
    /\ length (FMPXMLResult.metadata results) = 2%nat.
Proof.
  intros doc. eexists. split; [by vm_compute|].
  destruct (commit_result_shape Sample.request_host
              (Sample.server doc) Sample.client (u "find") _
              eq_refl)
    as (? & ? & ? & ? & ? & ? & ? & _ & _ & _ & _ & _ & _ & _ & H & _).
  split; [exact H|reflexivity].
Defined.

(** X16: a document with status 0 and fewer than five elements never
    gives a result, and what is raised is not FMError but the IndexError
    of the missing element, or the KeyError or ValueError of a metadata
    entry met before it. *)
Theorem short_document_raises (request_host : pystr -> res pystr)
    (urlopen : Request -> reply) (self : FM.t)
    (action : pystr) (request : Request) (info : pystr) (root : element) :
  (FM._commit_request request_host self action).2 = Ok request ->
  urlopen request = Response info root ->
  read_errorcode root = 0%Z ->
  (length (children root) < 5)%nat ->
  exists e,
    (FM._commit request_host urlopen self action).2 = Raise e
    /\ (e = IndexError \/ e = ValueError \/ exists k, e = KeyError k).
Proof.
  intros Hreq Hopen Hcode Hlen.
  rewrite (commit_sent request_host urlopen _ _ _ Hreq), Hopen. cbn [snd].
  unfold FM._commit_response. rewrite Hcode. cbn [Z.eqb negb].
  unfold getitem.
  destruct (children root !! 1%nat) as [e1|]; res_red; [|by eexists; eauto].
  destruct (children root !! 2%nat) as [e2|]; res_red; [|by eexists; eauto].
  destruct (children root !! 3%nat) as [e3|]; res_red; [|by eexists; eauto].
  destruct (mapM _ (children e3)) as [metadata|e] eqn:Hmd; res_red.
  - rewrite (proj2 (lookup_ge_None (children root) 4)) by lia. res_red.
    by eexists; eauto.
  - apply mapM_res_Raise in Hmd as (x & _ & [->|(k & -> & _)]%FMField_init_Raise);
      eexists; eauto.
Qed.

Lemma short_document_raises_witness :
  let root := Sample.El "FMPXMLRESULT" [] None
                [Sample.El "ERRORCODE" [] (Some (u "0")) []] in
  exists e,
    (FM._commit Sample.request_host (Sample.server root) Sample.client
       (u "find")).2 = Raise e
    /\ (e = IndexError \/ e = ValueError \/ exists k, e = KeyError k).
Proof.
  intros root.
  refine (short_document_raises Sample.request_host
              (Sample.server root) Sample.client (u "find")
            Sample.request (u "Content-Type: text/xml") root
            eq_refl eq_refl eq_refl _).
  cbn. lia.
Defined.

(** ** The Authorization header *)

Lemma b64char_not_newline (n : N) : b64char n <> 10.
Proof.
  unfold b64char.
  destruct (N.ltb_spec n 26), (N.ltb_spec n 52), (N.ltb_spec n 62),
    (N.eqb_spec n 62); lia.
Qed.

Lemma list_ind3 {A} (P : list A -> Prop) :
  P [] -> (forall a, P [a]) -> (forall a b, P [a; b]) ->
  (forall a b c l, P l -> P (a :: b :: c :: l)) ->
  forall l, P l.
Proof.
  intros H0 H1 H2 H3 l.
  assert (P l /\ (forall a, P (a :: l)) /\ (forall a b, P (a :: b :: l)))
    as [H _]; [|done].
  induction l as [|x l (IH0 & IH1 & IH2)]; [done|].
  split; [done|]. split; [done|]. intros a b. by apply H3.
Qed.

Lemma b2a_base64_no_newline (bs : pybytes) : 10 ∉ b2a_base64 bs.
Proof.
  induction bs as [|a|a b|a b c l IH] using list_ind3; cbn [b2a_base64].
  - by intros ?%elem_of_nil.
  - rewrite !not_elem_of_cons.
    repeat split; try done; try (apply not_eq_sym, b64char_not_newline).
    by intros ?%elem_of_nil.
  - rewrite !not_elem_of_cons.
    repeat split; try done; try (apply not_eq_sym, b64char_not_newline).
    by intros ?%elem_of_nil.
  - rewrite not_elem_of_app, !not_elem_of_cons.
    repeat split; try done; try (apply not_eq_sym, b64char_not_newline).
    by intros ?%elem_of_nil.
Qed.

Lemma encodebytes_one_line (bs : pybytes) :
  bs <> [] -> (length bs <= 57)%nat ->
  removelast (encodebytes bs) = b2a_base64 bs.
Proof.
  intros Hne Hlen. unfold encodebytes.
  destruct bs as [|b bs]; [done|]. cbn [length encodebytes_lines].
  rewrite take_ge, drop_ge by done.
  assert (encodebytes_lines (length bs) [] = []) as -> by by destruct (length bs).
  rewrite app_nil_r. apply removelast_last.
Qed.

Lemma encodebytes_lines_nonempty (fuel : nat) (bs : pybytes) :
  bs <> [] -> fuel <> O -> encodebytes_lines fuel bs <> [].
Proof.
  intros Hbs Hf. destruct fuel as [|fuel]; [done|]. destruct bs as [|b bs]; [done|].
  cbn [encodebytes_lines]. intros H%app_eq_nil. by destruct H as [_ H].
Qed.

Lemma encodebytes_more_lines (bs : pybytes) :
  (57 < length bs)%nat -> 10 ∈ removelast (encodebytes bs).
Proof.
  intros Hlen. unfold encodebytes.
  destruct bs as [|b bs]; [cbn in Hlen; lia|]. cbn [length encodebytes_lines].
  cbn [length] in Hlen.
  assert (encodebytes_lines (length bs) (drop 57 (b :: bs)) <> []) as Hrest.
  { apply encodebytes_lines_nonempty; [|lia].
    intros H%(f_equal length). rewrite length_drop in H. cbn in H. lia. }
  rewrite removelast_app by (by intros [=]).
  apply elem_of_app. right.
  destruct (encodebytes_lines (length bs) (drop 57 (b :: bs))); [done|].
  cbn. left.
Qed.

Lemma utf8_encode_nonempty (s : pystr) (bs : pybytes) :
  utf8_encode s = Ok bs -> s <> [] -> bs <> [].
Proof.
  destruct s as [|c s]; [done|]. cbn [utf8_encode].
  destruct (utf8_char c) as [cs|] eqn:Hc; [|done].
  destruct (utf8_encode s); res_red; [|done]. intros <-%Ok_inj _.
  destruct (utf8_char_bytes c cs Hc) as [[_ ->]|H]; [done|].
  intros [-> _]%app_eq_nil. revert Hc. unfold utf8_char.
  by repeat case_match.
Qed.

(** X17: the request carries the header Authorization with "Basic " and
    the base64 text of [user:password]. Up to 57 bytes of credentials this
    is one line; beyond that the text contains a line break, since
    [encodebytes] breaks its output after every 57 bytes and only the last
    line break is cut off. *)
Theorem authorization_header (request_host : pystr -> res pystr)
    (self : FM.t) (action : pystr) (request : Request) :
  (FM._commit_request request_host self action).2 = Ok request ->
  exists auth value,
    utf8_encode (FM._dbuser self ++ u ":" ++ FM._dbpasswd self) = Ok auth
    /\ headers request
       = [(u "User-Agent", u "Fmkr.py"); (u "Authorization", u "Basic " ++ value)]
    /\ ((length auth <= 57)%nat -> value = b2a_base64 auth /\ 10 ∉ value)
    /\ ((57 < length auth)%nat -> 10 ∈ value).
Proof.
  intros Hreq.
  destruct (FM._commit_request request_host self action) as [self' r] eqn:Heq.
  cbn [snd] in Hreq. subst r.
  apply commit_request_inv in Heq. cbn zeta in Heq.
  destruct (urlencode _); destruct Heq as [_ Heq]; [|done].
  destruct (encode_ascii _); res_red; [|done].
  destruct (Request__init__ _ _ _); res_red; [|done].
  destruct (utf8_encode _) as [auth|] eqn:Hauth; res_red; [|done].
  apply Ok_inj in Heq as ->. exists auth, (removelast (encodebytes auth)).
  split; [done|]. split; [done|]. split.
  - intros Hlen. rewrite encodebytes_one_line; [|by eapply utf8_encode_nonempty; [done|destruct (FM._dbuser self)]|done].
    split; [done|apply b2a_base64_no_newline].
  - apply encodebytes_more_lines.
Qed.

Lemma authorization_header_witness :
  let fmi := FM.set_db_password Sample.client (u "fmuser") (u "password") in
  exists request,
    (FM._commit_request Sample.request_host fmi (u "find")).2 = Ok request
    /\ headers request
       = [(u "User-Agent", u "Fmkr.py");
          (u "Authorization", u "Basic Zm11c2VyOnBhc3N3b3Jk")].
Proof.
  intros fmi. eexists. split; [reflexivity|].
  destruct (authorization_header Sample.request_host fmi (u "find") _ eq_refl)
    as (auth & value & Hauth & -> & Hshort & _).
  apply Ok_inj in Hauth as <-.
  destruct Hshort as [-> _]; [cbn; lia|]. reflexivity.
Defined.

(** ** Error codes and decimal text *)

Lemma str_Z_chars (n : Z) : Forall (fun c => 45 <= c <= 57) (str_Z n).
Proof.
  assert (forall m, Forall (fun c => 45 <= c <= 57) (str_N m)) as H.
  { intros m. eapply Forall_impl; [apply str_N_range|]. cbn. lia. }
  unfold str_Z. destruct n; try apply H. constructor; [lia|apply H].
Qed.

Lemma int_digits_acc (d : Decimal.uint) (p : positive) :
  int_digits (Npos p) false (uint_digits d) = Some (Npos (Pos.of_uint_acc d p)).
Proof.
  revert p. induction d; intros p; simpl; [done|..];
    rewrite <- IHd; f_equal; lia.
Qed.

Lemma int_digits_of_uint (d : Decimal.uint) :
  int_digits 0 false (uint_digits d) = Some (N.of_uint d).
Proof.
  induction d; simpl; [done|done|..]; by rewrite <- int_digits_acc.
Qed.

Lemma str_N_int (n : N) : int_unsigned (str_N n) = Some n.
Proof.
  pose proof (DecimalN.Unsigned.of_to n) as H. unfold str_N.
  rewrite <- H at 2. rewrite <- int_digits_of_uint.
  destruct (N.to_uint n) eqn:E; try done.
  by destruct n.
Qed.

Lemma int_space_printable (c : N) : 33 <= c <= 126 -> int_space c = false.
Proof. intros H. unfold int_space, isspace. by ltb_tac. Qed.

Lemma int_lskip_printable (s : pystr) :
  Forall (fun c => 45 <= c <= 57) s ->
  reverse (int_lskip (reverse (int_lskip s))) = s.
Proof.
  intros H.
  assert (forall t, Forall (fun c => 45 <= c <= 57) t -> int_lskip t = t) as Hid.
  { intros [|c t]; [done|]. intros [Hc _]%Forall_cons. cbn.
    by rewrite int_space_printable by lia. }
  rewrite (Hid s H), Hid by by apply Forall_reverse.
  apply reverse_involutive.
Qed.

Lemma int_str_str_Z (n : Z) : int_str (str_Z n) = Ok n.
Proof.
  unfold int_str. rewrite int_lskip_printable by apply str_Z_chars.
  unfold str_Z. destruct n as [|p|p].
  - done.
  - pose proof (str_N_int (Npos p)) as H. cbn [Z.to_N]. unfold str_N in *.
    destruct (N.to_uint (N.pos p)); [done|..]; cbn [uint_digits] in *;
      by rewrite H.
  - by rewrite str_N_int.
Qed.

Lemma FMError_init_int (n : Z) :
  FMError.__init__ (VInt n)
  = FMError.mk n (u "FileMaker Error " ++ str_Z n ++ u ": "
                  ++ default (u "Unknown error code") (FMError.CODES !! n)).
Proof. reflexivity. Qed.

(** X18: an FMError made from a message has code -1 and that message; one
    made from a code keeps the code, and its message, which starts with
    "FileMaker Error " and the code, tells the code: two different codes
    never give the same message, whether or not the table knows them. *)
Theorem FMError_message_tells_code (n m : Z) :
  (forall s, FMError.__init__ (VStr s) = FMError.mk (-1) s)
  /\ FMError.code (FMError.__init__ (VInt n)) = n
  /\ (exists text,
        FMError.message (FMError.__init__ (VInt n))
        = u "FileMaker Error " ++ str_Z n ++ u ": " ++ text)
  /\ (FMError.message (FMError.__init__ (VInt n))
      = FMError.message (FMError.__init__ (VInt m)) -> n = m).
Proof.
  split; [intros s; reflexivity|]. rewrite !FMError_init_int.
  generalize (default (u "Unknown error code") (FMError.CODES !! n)).
  generalize (default (u "Unknown error code") (FMError.CODES !! m)).
  intros tm tn. cbn [FMError.code FMError.message].
  split; [reflexivity|]. split; [by exists tn|].
  intros H%app_inv_head.
  change (u ": " ++ tn) with (58 :: 32 :: tn) in H.
  change (u ": " ++ tm) with (58 :: 32 :: tm) in H.
  assert (forall k, 58 ∉ str_Z k) as Hc.
  { intros k Hk. apply (proj1 (Forall_forall _ _) (str_Z_chars k)) in Hk. lia. }
  apply (f_equal (cut 58)) in H. rewrite !cut_first in H by apply Hc.
  apply (f_equal fst) in H. by apply str_Z_inj.
Qed.

Lemma FMError_message_tells_code_witness :
  FMError.message (FMError.__init__ (VInt 9999))
  <> FMError.message (FMError.__init__ (VInt 9998)).
Proof.
  intros H.
  apply (proj2 (proj2 (proj2 (FMError_message_tells_code 9999 9998)))) in H.
  discriminate H.
Defined.

(** X19: a status element that holds an integer in decimal notation is
    decoded as that integer, negative ones included: reading undoes
    printing. A nonzero one is then the code of the FMError raised. *)
Theorem status_decimal_read_back (request_host : pystr -> res pystr)
    (urlopen : Request -> reply) (self : FM.t)
    (action : pystr) (request : Request) (info : pystr) (root e : element)
    (n : Z) :
  children root !! 0%nat = Some e ->
  text e = Some (str_Z n) ->
  read_errorcode root = n
  /\ ((FM._commit_request request_host self action).2 = Ok request ->
      urlopen request = Response info root -> n <> 0%Z ->
      (FM._commit request_host urlopen self action).2
      = Raise (FMError_exn (FMError.__init__ (VInt n)))).
Proof.
  intros He Ht.
  assert (read_errorcode root = n) as Hcode
    by (eapply read_errorcode_int; [done..|apply int_str_str_Z]).
  split; [done|]. intros Hreq Hopen Hn.
  rewrite (commit_sent request_host urlopen _ _ _ Hreq), Hopen. cbn [snd].
  pose proof (commit_response_cases (FM.with_dbparams self []) request
                (Response info root)) as H. cbn beta iota in H.
  rewrite Hcode in H. by apply H.
Qed.

Lemma status_decimal_read_back_witness :
  read_errorcode (Sample.document (Some (u "-1")) [] []) = (-1)%Z.
Proof.
  exact (proj1 (status_decimal_read_back Sample.request_host
              (fun _ => HTTPError []) Sample.client
                  [] Sample.request []
                  (Sample.document (Some (u "-1")) [] [])
                  (Sample.El "ERRORCODE" [] (Some (u "-1")) []) (-1)
                  eq_refl eq_refl)).
Defined.

(** ** More on rows and on the first request *)

Lemma read_fields_at (escrslt : bool) (pairs : list (FMField.t * element))
    (record record' : gmap pystr value) (i : nat) (md : FMField.t) (cn : element) :
  read_fields escrslt record pairs = Ok record' ->
  pairs !! i = Some (md, cn) ->
  NoDup ((fun p => FMField.name p.1) <$> pairs) ->
  exists v, read_value escrslt md cn = Ok v /\ record' !! FMField.name md = Some v.
Proof.
  revert record i. induction pairs as [|[md0 cn0] pairs IH]; intros record i; [done|].
  cbn [read_fields]. destruct (read_value escrslt md0 cn0) as [v0|] eqn:Hv0;
    res_red; [|done].
  intros Hrest Hi [Hnotin Hnodup]%NoDup_cons. destruct i as [|i].
  - injection Hi as -> ->. exists v0. split; [done|].
    apply read_fields_record in Hrest as [_ Hlook]. cbn [fst] in Hnotin.
    rewrite (Hlook (FMField.name md) Hnotin). apply lookup_insert_eq.
  - by eapply IH.
Qed.

(** X20: with distinct field names, the record holds under the name of
    the i-th field the value decoded from the i-th column of the row. A
    field named MODID or RECORDID thus replaces the identifier of the
    row. *)
Theorem read_row_field_value (escrslt : bool) (metadata : list FMField.t)
    (row : element) (record : gmap pystr value) (i : nat) (md : FMField.t)
    (cn : element) :
  read_row escrslt metadata row = Ok record ->
  NoDup (FMField.name <$> metadata) ->
  metadata !! i = Some md -> children row !! i = Some cn ->
  exists v, read_value escrslt md cn = Ok v
            /\ record !! FMField.name md = Some v.
Proof.
  intros H Hnodup Hmd Hcn. unfold read_row, getkey in H.
  destruct (attrib row !! u "MODID") as [m|]; res_red; [|done].
  destruct (int_str m) as [modid|]; res_red; [|done].
  destruct (attrib row !! u "RECORDID") as [r|]; res_red; [|done].
  destruct (int_str r) as [recid|]; res_red; [|done].
  eapply read_fields_at; [done| |].
  - by apply lookup_zip_Some.
  - rewrite zip_names, fmap_take. eapply sublist_NoDup; [done|apply sublist_take].
Qed.

Lemma read_row_field_value_witness :
  let metadata := [FMField.mk (u "LAST") 1 true T_str;
                   FMField.mk (u "RECORDID") 1 true T_str] in
  let row := Sample.El "ROW" [("MODID", "2"); ("RECORDID", "7")] None
               [Sample.El "COL" [] None [Sample.DATA (Some (u "Doe"))];
                Sample.El "COL" [] None [Sample.DATA (Some (u "A-7"))]] in
  let record : gmap pystr value :=
    {[ u "RECORDID" := Scalar (VStr (u "A-7")); u "MODID" := Scalar (VInt 2);
       u "LAST" := Scalar (VStr (u "Doe")) ]} in
  read_row false metadata row = Ok record
  /\ exists v,
       read_value false (FMField.mk (u "RECORDID") 1 true T_str)
         (Sample.El "COL" [] None [Sample.DATA (Some (u "A-7"))]) = Ok v
       /\ record !! u "RECORDID" = Some v.
Proof.
  intros metadata row record.
  assert (read_row false metadata row = Ok record) as H
    by (vm_compute; reflexivity).
  split; [exact H|].
  refine (read_row_field_value false metadata row record 1 _ _ H _ eq_refl eq_refl).
  apply NoDup_cons. split; [|apply NoDup_singleton].
  by intros [=]%list_elem_of_singleton.
Defined.

(** *** The address of the request *)

Lemma rpartition_None (sep : N) (s : pystr) :
  sep ∉ s -> rpartition sep s = None.
Proof.
  induction s as [|c s IH]; [done|]. intros [Hc Hs]%not_elem_of_cons.
  cbn [rpartition]. rewrite IH by done.
  by destruct (N.eqb_spec c sep) as [->|].
Qed.

Lemma rpartition_Some (sep : N) (s before after : pystr) :
  rpartition sep s = Some (before, after) -> s = before ++ sep :: after.
Proof.
  revert before. induction s as [|c s IH]; intros before; [done|].
  cbn [rpartition]. destruct (rpartition sep s) as [[b a]|].
  - intros [= <- <-]. cbn. f_equal. by apply IH.
  - destruct (N.eqb_spec c sep) as [->|]; [|done]. by intros [= <- <-].
Qed.

(** An address that neither starts nor ends with white space, and does
    not start with [<] or [U], is taken as it is. *)
Lemma unwrap_id (url : pystr) (c d : N) :
  head url = Some c -> last url = Some d ->
  isspace c = false -> isspace d = false -> c <> 60 -> c <> 85 ->
  unwrap url = url.
Proof.
  intros Hc Hd Hsc Hsd H60 H85. unfold unwrap.
  assert (strip url = url) as ->.
  { unfold strip. rewrite lstrip_id; [apply rstrip_id|];
      intros x; rewrite ?Hc, ?Hd; by intros [= <-]. }
  destruct url as [|x url]; [done|]. injection Hc as ->.
  change (u "<") with [60]. change (u "URL:") with [85; 82; 76; 58].
  cbn [take]. rewrite (bool_decide_eq_false_2 (_ = [60])) by (intros [=]; lia).
  cbn [andb]. rewrite bool_decide_eq_false_2; [done|]. intros [=]. lia.
Qed.

Lemma URL_last (protocol server : pystr) (port : Z) :
  last (protocol ++ u "://" ++ server ++ u ":" ++ str_Z port
        ++ u "/fmi/xml/FMPXMLRESULT.xml") = Some 108.
Proof. by rewrite !last_app. Qed.

(** With the protocol http or https and no [#] in the server name,
    [Request] finds the type and keeps the address as it is written. *)
Lemma Request_full_url_http (protocol server : pystr) (port : Z) :
  protocol ∈ [u "http"; u "https"] -> 35 ∉ server ->
  let url := protocol ++ u "://" ++ server ++ u ":" ++ str_Z port
             ++ u "/fmi/xml/FMPXMLRESULT.xml" in
  Request_full_url url = Ok url.
Proof.
  intros Hp Hs url. unfold Request_full_url.
  assert (head url = Some 104) as Hhead.
  { subst url. by repeat (apply elem_of_cons in Hp as [->|Hp]; [done|]);
      apply elem_of_nil in Hp. }
  rewrite (unwrap_id url 104 108 Hhead (URL_last _ _ _));
    [|done|done|lia|lia].
  assert (35 ∉ url) as Hno.
  { subst url. rewrite !not_elem_of_app. repeat split; try done.
    - repeat (apply elem_of_cons in Hp as [->|Hp]; [compute_done|]).
      by apply elem_of_nil in Hp.
    - compute_done.
    - compute_done.
    - intros H. apply (proj1 (Forall_forall _ _) (str_Z_chars port)) in H. lia.
    - compute_done. }
  unfold _splittag. rewrite (rpartition_None _ _ Hno).
  assert (is_Some (_splittype url)) as [rest ->]; [|done].
  subst url.
  repeat (apply elem_of_cons in Hp as [->|Hp]; [by eexists|]).
  by apply elem_of_nil in Hp.
Qed.

(** An address that starts with a colon has no type. *)
Lemma Request_full_url_no_protocol (server : pystr) (port : Z) :
  Request_full_url (u "://" ++ server ++ u ":" ++ str_Z port
                    ++ u "/fmi/xml/FMPXMLRESULT.xml") = Raise ValueError.
Proof.
  unfold Request_full_url.
  rewrite (unwrap_id _ 58 108);
    [|reflexivity|apply (URL_last [])|done|done|lia|lia].
  unfold _splittag.
  destruct (rpartition 35 _) as [[path tag]|] eqn:Hr; [|done].
  apply rpartition_Some in Hr. by destruct path as [|c path]; [|injection Hr as <-].
Qed.

(** X21: nothing checks that a database was selected: a new client
    submits at once. When [Request] accepts the address, the body is the
    default limit and the action alone, sent with the credentials of an
    empty user and password. With the protocol http or https and no [#] in
    the server name the address has a type and is taken as written, so
    that only the library's verdict on its network location is open.
    Without a protocol the address has no type and ValueError is raised. *)
Theorem fresh_client_request (request_host : pystr -> res pystr)
    (server : pystr) (port : Z) (protocol action : pystr) :
  is_ascii action = true ->
  let fmi := FM.__init__ server port protocol in
  let url := protocol ++ u "://" ++ server ++ u ":" ++ str_Z port
             ++ u "/fmi/xml/FMPXMLRESULT.xml" in
  (forall full host,
      Request_full_url url = Ok full -> request_host full = Ok host ->
      FM._commit_request request_host fmi action
      = (fmi,
         Ok (mkRequest url (u "-max=50&-" ++ action)
               [(u "User-Agent", u "Fmkr.py");
                (u "Authorization", u "Basic Og==")])))
  /\ (protocol ∈ [u "http"; u "https"] -> 35 ∉ server ->
      Request_full_url url = Ok url)
  /\ (protocol = [] ->
      FM._commit_request request_host fmi action = (fmi, Raise ValueError)).
Proof.
  intros Hact fmi url.
  assert (exists r,
             FM._commit_request request_host fmi action = (fmi, r)
             /\ r = (_ ← Request__init__ request_host url
                           (u "-max=50&-" ++ action);
                     Ok (mkRequest url (u "-max=50&-" ++ action)
                           [(u "User-Agent", u "Fmkr.py");
                            (u "Authorization", u "Basic Og==")])))
    as (r & -> & ->).
  { destruct (FM._commit_request request_host fmi action) as [self' r] eqn:H.
    apply commit_request_inv in H. cbn zeta in H.
    change (urlencode _) with (urlencode [(u "-max", VInt 50)]) in H.
    assert (urlencode [(u "-max", VInt 50)] = Ok (u "-max=50")) as Hq
      by reflexivity.
    rewrite Hq in H. destruct H as [-> ->]. eexists. split; [reflexivity|].
    assert (encode_ascii (u "-max=50" ++ u "&-" ++ action)
            = Ok (u "-max=50&-" ++ action)) as ->.
    { unfold encode_ascii. fold (is_ascii (u "-max=50" ++ u "&-" ++ action)).
      by rewrite !is_ascii_app, Hact. }
    res_red. change (FM.URL fmi) with url.
    by destruct (Request__init__ _ _ _). }
  split; [|split].
  - intros full host Hfull Hhost. f_equal.
    assert (Request__init__ request_host url (u "-max=50&-" ++ action)
            = Ok (mkRequest url (u "-max=50&-" ++ action) [])) as ->; [|done].
    apply Request_init_Ok. split; [done|]. by exists full, host.
  - apply Request_full_url_http.
  - intros Hp. f_equal. unfold Request__init__. subst url. rewrite Hp.
    rewrite app_nil_l. by rewrite Request_full_url_no_protocol.
Qed.

Lemma fresh_client_request_witness :
  FM._commit_request Sample.request_host
    (FM.__init__ (u "filemaker.domain.com") 80 (u "http")) (u "findall")
  = (FM.__init__ (u "filemaker.domain.com") 80 (u "http"),
     Ok (mkRequest (u "http://filemaker.domain.com:80/fmi/xml/FMPXMLRESULT.xml")
           (u "-max=50&-findall")
           [(u "User-Agent", u "Fmkr.py"); (u "Authorization", u "Basic Og==")])).
Proof.
  destruct (fresh_client_request Sample.request_host (u "filemaker.domain.com")
              80 (u "http") (u "findall") eq_refl) as (Hsent & Hurl & _).
  refine (Hsent _ (u "filemaker.domain.com") (Hurl _ _) eq_refl).
  - apply list_elem_of_here.
  - compute_done.
Defined.

(** The address of [FM('h', 80, '')] has no type: no request is made,
    and this is found before the credentials are encoded. *)
Example no_protocol_no_request (request_host : pystr -> res pystr)
    (urlopen : Request -> reply) :
  let fmi := FM.set_db_password (FM.__init__ (u "h") 80 [])
               [55296] (u "secret") in
  FM.URL fmi = u "://h:80/fmi/xml/FMPXMLRESULT.xml"
  /\ FM.fm_find request_host urlopen fmi = (fmi, Raise ValueError).
Proof. split; reflexivity. Qed.
